(** * backend/server.py: the face-recognition broadcast server

    A shallow embedding of [FaceRecognitionServer] (similarity matching,
    per-frame processing, the broadcast cycle and the connection set)
    and the properties of it that the design document states.

    Conventions of the embedding.
    - NumPy arrays of floats are lists of [spec_float] in one binary
      format [(prec, emax)]; arithmetic is the IEEE-754 arithmetic of
      [SpecFloat], so NaN and the infinities behave as in NumPy.
    - A Python call that may raise returns a [result]; the class of the
      exception decides whether [except Exception] catches it.
    - The models, OpenCV, the clock, the JSON encoder and the sockets are
      fields of the records [FaceRecognitionServer] and [Env]. *)

From Stdlib Require Import ZArith List Bool Lia.
From Stdlib Require Import Strings.String Strings.Ascii.
From Stdlib Require Import Numbers.DecimalString.
From Stdlib Require Import Floats.SpecFloat.
From Stdlib Require Import Sorting.Sorted.
From Stdlib Require OrderedTypeEx DecimalNat DecimalFacts.
From stdpp Require Import base decidable gmap sets.
Import ListNotations.
#[local] Set Warnings "-clear-no-such-hyp".
Open Scope Z_scope.
Open Scope list_scope.

(** ** Exceptions *)

(** Python exceptions by the only distinction the handlers of server.py
    make: instances of [Exception] (caught by [except Exception]) and
    the others below [BaseException] ([KeyboardInterrupt], [SystemExit],
    [asyncio.CancelledError]), which no handler of the file catches. *)
Inductive exn : Type :=
| Exception (msg : string)
| BaseException (msg : string).

Definition exn_str (e : exn) : string :=
  match e with Exception m => m | BaseException m => m end.

Inductive result (A : Type) : Type :=
| Ok (a : A)
| Raise (e : exn).
Arguments Ok {A} a.
Arguments Raise {A} e.

(** ** Floating point (NumPy scalars and arrays) *)

Definition float := spec_float.
Definition vec := list float.

Definition is_nan (x : float) : bool :=
  match x with S754_nan => true | _ => false end.

Definition is_zero (x : float) : bool :=
  match x with S754_zero _ => true | _ => false end.

Definition pos_zero : float := S754_zero false.

Definition zero_or_nan (x : float) : bool := is_zero x || is_nan x.

(** [int(x)]: truncation toward zero; [ValueError] on NaN and
    [OverflowError] on an infinity. *)
Definition py_int (x : float) : result Z :=
  match x with
  | S754_zero _ => Ok 0
  | S754_finite s m e =>
      let a := match e with
               | Zneg p => Z.shiftr (Zpos m) (Zpos p)
               | _ => Z.shiftl (Zpos m) e
               end in
      Ok (if s then - a else a)
  | S754_infinity _ =>
      Raise (Exception "OverflowError: cannot convert float infinity to integer")
  | S754_nan =>
      Raise (Exception "ValueError: cannot convert float NaN to integer")
  end.

Section Numeric.
(** The binary format of the arrays: (24, 128) is float32 and
    (53, 1024) is float64. *)
Variables prec emax : Z.

(** The Python literal [0.6] (the double 5404319552844595 * 2^-53)
    brought to the format of the array it is compared with. *)
Definition threshold : float :=
  binary_normalize prec emax 5404319552844595 (-53) false.

(** [np.dot] of two 1-D arrays of equal length. *)
Fixpoint dot_from (acc : float) (a b : vec) : float :=
  match a, b with
  | x :: a', y :: b' => dot_from (SFadd prec emax acc (SFmul prec emax x y)) a' b'
  | _, _ => acc
  end.

Definition dot (a b : vec) : float := dot_from pos_zero a b.

(** [np.linalg.norm] of one row: the square root of the sum of squares. *)
Definition norm (a : vec) : float := SFsqrt prec emax (dot a a).

(** The expression of line 40 for an embedding of shape (1, d) and a
    gallery of shape (n, d):
    [np.dot(e, Y.T) / (np.linalg.norm(e) * np.linalg.norm(Y, axis=1))]. *)
Definition cosine_row (embedding1 : vec) (row : vec) : float :=
  SFdiv prec emax (dot embedding1 row)
                  (SFmul prec emax (norm embedding1) (norm row)).

(** [np.dot] needs the inner dimensions to agree. *)
Definition shapes_aligned (embedding1 : vec) (embeddings2 : list vec) : bool :=
  forallb (fun row => Nat.eqb (length row) (length embedding1)) embeddings2.

(** [np.zeros(len(embeddings2))] *)
Definition np_zeros (n : nat) : vec := repeat pos_zero n.

(** [calculate_similarity]: the quotient, or, when NumPy raised (the
    shapes do not align), the error and the vector of zeros of the
    [except] branch. Division by zero does not raise in NumPy: it
    yields NaN or an infinity and a warning. *)
Definition calculate_similarity (embedding1 : vec) (embeddings2 : list vec)
  : vec * option exn :=
  if shapes_aligned embedding1 embeddings2
  then (map (cosine_row embedding1) embeddings2, None)
  else (np_zeros (length embeddings2),
        Some (Exception "ValueError: shapes not aligned")).

(** [np.maximum] on two scalars: the first if it is NaN or not below
    the second, else the second; NaN therefore propagates. *)
Definition np_maximum (a b : float) : float :=
  if SFleb b a || is_nan a then a else b.

(** [np.max] of a 1-D array; [ValueError] on an empty one. *)
Definition np_max (xs : vec) : result float :=
  match xs with
  | [] => Raise (Exception "ValueError: zero-size array to reduction operation maximum which has no identity")
  | x :: xs' => Ok (fold_left np_maximum xs' x)
  end.
End Numeric.


(** ** Images (NumPy arrays of shape (h, w, 3)) *)

Definition pixel : Type := Z * Z * Z.
Definition image : Type := list (list pixel).

Definition image_width (im : image) : nat :=
  match im with [] => 0%nat | row :: _ => length row end.

(** [im.size] *)
Definition image_size (im : image) : Z :=
  Z.of_nat (length im) * Z.of_nat (image_width im) * 3.

(** One bound of a Python slice over a sequence of length [n]: a
    negative index counts from the end, and both are clipped. *)
Definition slice_bound (i n : Z) : Z :=
  if i <? 0 then Z.max (i + n) 0 else Z.min i n.

(** [l[start:stop]] *)
Definition py_slice {A : Type} (l : list A) (start stop : Z) : list A :=
  let n := Z.of_nat (length l) in
  let a := slice_bound start n in
  let b := slice_bound stop n in
  firstn (Z.to_nat (b - a)) (skipn (Z.to_nat a) l).

(** [im[y1:y2, x1:x2]] *)
Definition crop (im : image) (y1 y2 x1 x2 : Z) : image :=
  map (fun row => py_slice row x1 x2) (py_slice im y1 y2).

(** [cv2.cvtColor(frame, cv2.COLOR_BGR2RGB)]: swaps the first and the
    third channel; OpenCV rejects an empty image. *)
Definition cv2_cvtColor (frame : image) : result image :=
  if image_size frame =? 0
  then Raise (Exception "cv2.error: (-215:Assertion failed) !_src.empty() in function 'cvtColor'")
  else Ok (map (map (fun '(b, g, r) => (r, g, b))) frame).

(** ** Detector output, faces and payloads *)

(** One detected box: the four floats of [box.xyxy[0]]. *)
Record Box : Type := { bx1 : float; by1 : float; bx2 : float; by2 : float }.

(** The dictionary appended to [detected_faces] (lines 67-73). *)
Record DetectedFace : Type := {
  f_id : string;
  f_name : string;
  f_confidence : float;
  f_box : list Z;
  f_timestamp : Z
}.

Record Status : Type := { isDetecting : bool; lastUpdated : Z }.

(** The dictionary [response] (lines 92-98). *)
Record FramePayload : Type := { status : Status; faces : list DetectedFace }.

(** [str(n)] for a length. *)
Definition str (n : nat) : string := NilZero.string_of_uint (Nat.to_uint n).

(** ** The label encoder *)

Fixpoint insert_label (s : string) (l : list string) : list string :=
  match l with
  | [] => [s]
  | x :: l' =>
      match String.compare s x with
      | Lt => s :: l
      | Eq => l
      | Gt => x :: insert_label s l'
      end
  end.

(** [LabelEncoder().fit(labels).classes_]: the labels, sorted, without
    repetition. *)
Definition fit_classes (labels : list string) : list string :=
  fold_right insert_label [] labels.

(** [encoder.inverse_transform([idx])[0]]: [ValueError] for an index
    that is not one of the classes. *)
Definition inverse_transform (classes : list string) (idx : Z) : result string :=
  if (0 <=? idx) && (idx <? Z.of_nat (length classes))
  then Ok (nth (Z.to_nat idx) classes EmptyString)
  else Raise (Exception "ValueError: y contains previously unseen labels").

(** ** The server object and its environment *)

Definition handle : Type := nat.

(** What [initialize_models] loads into [self]. *)
Record FaceRecognitionServer : Type := {
  (** [self.facenet.embeddings] on a batch of one image: the one row of
      the (1, d) result *)
  facenet : image -> result vec;
  (** [self.model.predict(source=frame, ...)]: the results, each with
      its [boxes] *)
  model : image -> result (list (list Box));
  (** [self.svm_model.predict(embedding)[0]] *)
  svm_model : vec -> result Z;
  (** [self.Y]: the gallery, shape (n, d) *)
  Y : list vec;
  (** [self.labels] *)
  labels : list string
}.

(** [self.encoder] after [fit_transform(self.labels)] *)
Definition encoder (self : FaceRecognitionServer) : list string :=
  fit_classes (labels self).

(** The connection handlers that run while the loop is suspended. *)
Inductive conn_event : Type :=
| Connected (ws : handle)   (* [handle_connection] up to line 113 *)
| Closed (ws : handle).     (* [wait_closed] returned: lines 116-118 *)

(** The collaborators outside [self]. The argument [k : nat] is the
    number of interactions with the environment so far. *)
Record Env : Type := {
  cap_isOpened : bool;
  (** [cap.read()]: [None] when [ret] is false *)
  cap_read : nat -> option image;
  (** [cv2.resize(face_img, (160, 160))] *)
  cv2_resize : image -> result image;
  (** [int(time.time() * 1000)] *)
  time_ms : nat -> Z;
  json_dumps : FramePayload -> string;
  (** [await ws.send(data)] *)
  ws_send : nat -> handle -> string -> result unit;
  (** the handlers the scheduler runs during the [k]-th interaction
      when it is an [await] *)
  scheduled : nat -> list conn_event;
  (** [websocket.remote_address[0]] *)
  remote_address : handle -> string
}.

(** ** State and the monad of the coroutines *)

Inductive event : Type :=
| LogInfo (msg : string)
| LogWarning (msg : string)
| LogError (msg : string)
| JsonDumps (p : FramePayload)          (* a call of [json.dumps] *)
| WsSend (ws : handle) (data : string). (* a call of [ws.send] *)

Record state : Type := {
  steps : nat;                     (* interactions with the environment *)
  active_connections : gset handle;
  trace : list event               (* oldest first *)
}.

Definition M (A : Type) : Type := state -> result A * state.

Definition ret {A : Type} (a : A) : M A := fun s => (Ok a, s).

Definition bind {A B : Type} (m : M A) (k : A -> M B) : M B :=
  fun s => match m s with
           | (Ok a, s') => k a s'
           | (Raise e, s') => (Raise e, s')
           end.

Definition lift {A : Type} (r : result A) : M A := fun s => (r, s).

Declare Scope coroutine_scope.
Delimit Scope coroutine_scope with co.
Notation "x <- m ;; k" := (bind m (fun x => k))
  (at level 100, m at next level, right associativity) : coroutine_scope.

Definition emit (e : event) (s : state) : state :=
  {| steps := steps s;
     active_connections := active_connections s;
     trace := trace s ++ [e] |}.

Definition tick (s : state) : state :=
  {| steps := S (steps s);
     active_connections := active_connections s;
     trace := trace s |}.

Definition logger_warning (msg : string) : M unit := fun s => (Ok tt, emit (LogWarning msg) s).
Definition logger_info (msg : string) : M unit := fun s => (Ok tt, emit (LogInfo msg) s).

(** ** handle_connection *)

(** [self.active_connections.add(websocket)] and the log line. *)
Definition register (env : Env) (ws : handle) (s : state) : state :=
  emit (LogInfo ("Client connected: " ++ remote_address env ws)%string)
    {| steps := steps s;
       active_connections := {[ ws ]} ∪ active_connections s;
       trace := trace s |}.

(** The [finally] block: [self.active_connections.remove(websocket)]
    and the log line. [remove] raises [KeyError] for an absent element;
    the error ends the handler's own task and the set is as it was. *)
Definition unregister (env : Env) (ws : handle) (s : state) : state :=
  if decide (ws ∈ active_connections s)
  then emit (LogInfo ("Client disconnected: " ++ remote_address env ws)%string)
         {| steps := steps s;
            active_connections := active_connections s ∖ {[ ws ]};
            trace := trace s |}
  else s.

Definition run_handler (env : Env) (s : state) (ev : conn_event) : state :=
  match ev with
  | Connected ws => register env ws s
  | Closed ws => unregister env ws s
  end.

(** A suspension point of the loop ([await] of a send or of the sleep):
    the handlers scheduled for this interaction run, one after the
    other, before the loop resumes. *)
Definition suspend (env : Env) (s : state) : state :=
  tick (fold_left (run_handler env) (scheduled env (steps s)) s).

(** [list(self.active_connections)]: a new list of the members. *)
Definition snapshot (s : state) : list handle := elements (active_connections s).

(** [FaceRecognitionServer.__init__] after the models are loaded. *)
Definition initial_state : state :=
  {| steps := 0; active_connections := ∅; trace := [] |}.

Section Server.
Variables prec emax : Z.
Variable self : FaceRecognitionServer.
Variable env : Env.

Local Open Scope coroutine_scope.

(** [calculate_similarity] with its log line. *)
Definition similarity (embedding : vec) : M vec := fun s =>
  match calculate_similarity prec emax embedding (Y self) with
  | (sims, None) => (Ok sims, s)
  | (sims, Some e) =>
      (Ok sims, emit (LogError ("Error in similarity calc: " ++ exn_str e)%string) s)
  end.

(** [int(time.time() * 1000)] *)
Definition now_ms : M Z := fun s => (Ok (time_ms env (steps s)), tick s).

(** The body of the [try] of lines 53-73 for one box, when
    [detected_faces] holds [n] faces: [None] is the [continue] of line
    55, [Some f] the face that line 67 appends. *)
Definition face_try (rgb_img : image) (n : nat) (box : Box)
  : M (option DetectedFace) :=
  x1 <- lift (py_int (bx1 box));;
  y1 <- lift (py_int (by1 box));;
  x2 <- lift (py_int (bx2 box));;
  y2 <- lift (py_int (by2 box));;
  let face_img := crop rgb_img y1 y2 x1 x2 in
  if image_size face_img =? 0 then ret None else
  face_img <- lift (cv2_resize env face_img);;
  embedding <- lift (facenet self face_img);;
  similarities <- similarity embedding;;
  max_similarity <- lift (np_max similarities);;
  name <- (if SFltb (threshold prec emax) max_similarity
           then face_idx <- lift (svm_model self embedding);;
                lift (inverse_transform (encoder self) face_idx)
           else ret "Visitor"%string);;
  timestamp <- now_ms;;
  ret (Some {| f_id := str n;
               f_name := name;
               f_confidence := max_similarity;
               f_box := [x1; y1; x2 - x1; y2 - y1];
               f_timestamp := timestamp |}).

(** The inner loop of lines 51-76 over the boxes of one result. An
    [Exception] is logged (message, then traceback) and the loop goes
    on; anything else leaves the loop. *)
Fixpoint process_boxes (rgb_img : image) (boxes : list Box)
    (detected_faces : list DetectedFace) : M (list DetectedFace) :=
  match boxes with
  | [] => ret detected_faces
  | box :: rest => fun s =>
      match face_try rgb_img (length detected_faces) box s with
      | (Ok (Some face), s') => process_boxes rgb_img rest (detected_faces ++ [face]) s'
      | (Ok None, s') => process_boxes rgb_img rest detected_faces s'
      | (Raise (Exception msg), s') =>
          process_boxes rgb_img rest detected_faces
            (emit (LogError "Traceback (most recent call last): ...")
               (emit (LogError ("Face processing error: " ++ msg)%string) s'))
      | (Raise (BaseException msg), s') => (Raise (BaseException msg), s')
      end
  end.

(** The outer loop of line 50 over the results. *)
Fixpoint process_results (rgb_img : image) (results : list (list Box))
    (detected_faces : list DetectedFace) : M (list DetectedFace) :=
  match results with
  | [] => ret detected_faces
  | result_boxes :: rest =>
      detected_faces' <- process_boxes rgb_img result_boxes detected_faces;;
      process_results rgb_img rest detected_faces'
  end.

Definition process_frame (frame : image) : M (list DetectedFace) :=
  rgb_img <- lift (cv2_cvtColor frame);;
  results <- lift (model self frame);;
  process_results rgb_img results [].

(** The loop of lines 102-106 over the copied list. *)
Fixpoint send_all (response : FramePayload) (subscribers : list handle) : M unit :=
  match subscribers with
  | [] => ret tt
  | ws :: rest => fun s =>
      let data := json_dumps env response in
      let s1 := emit (WsSend ws data) (emit (JsonDumps response) s) in
      match ws_send env (steps s1) ws data with
      | Ok _ => send_all response rest (suspend env s1)
      | Raise (Exception msg) =>
          send_all response rest
            (emit (LogError ("Failed to send to client: " ++ msg)%string) (suspend env s1))
      | Raise (BaseException msg) => (Raise (BaseException msg), suspend env s1)
      end
  end.

(** Lines 100-106. *)
Definition publish (response : FramePayload) : M unit :=
  _ <- (fun s =>
          if decide (active_connections s = ∅) then (Ok tt, s)
          else logger_info ("Broadcasting to " ++ str (size (active_connections s))
                              ++ " clients.")%string s);;
  fun s => send_all response (snapshot s) s.

(** Lines 91-98: the payload of one frame. *)
Definition build_response (frame : image) : M FramePayload :=
  detected <- process_frame frame;;
  last_updated <- now_ms;;
  ret {| status := {| isDetecting := true; lastUpdated := last_updated |};
         faces := detected |}.

(** One iteration of [while True] (lines 86-108). *)
Definition cycle : M unit := fun s =>
  match cap_read env (steps s) with
  | None => logger_warning "Frame read failed." (tick s)
  | Some frame =>
      (response <- build_response frame;;
       _ <- publish response;;
       fun s' => (Ok tt, suspend env s')) (tick s)
  end.

(** [fuel] iterations of [while True]. *)
Fixpoint iterate (fuel : nat) : M unit :=
  match fuel with
  | O => ret tt
  | S fuel' => _ <- cycle;; iterate fuel'
  end.

(** How a run of [video_stream_loop] stands after at most [fuel]
    iterations. *)
Inductive loop_status : Type :=
| Returned                (* line 83: the capture device did not open *)
| Running                 (* [fuel] iterations done, the loop goes on *)
| Escaped (e : exn).      (* an exception left the coroutine *)

Definition video_stream_loop (fuel : nat) (s : state) : loop_status * state :=
  if cap_isOpened env
  then match iterate fuel s with
       | (Ok _, s') => (Running, s')
       | (Raise e, s') => (Escaped e, s')
       end
  else (Returned, emit (LogError "Failed to open video source.") s).
End Server.

(** ** A small concrete deployment, for the examples *)

Module Demo.
(** float32 values [m * 2^e] *)
Definition f32 (m e : Z) : float := binary_normalize 24 128 m e false.

(** A 4 x 6 BGR frame; the blue channel of a pixel is its column. *)
Definition frame : image :=
  repeat (map (fun c => (c, 0, 0)) [0; 1; 2; 3; 4; 5]) 4.

Definition mk_box (x1 y1 x2 y2 : Z) : Box :=
  {| bx1 := f32 x1 0; by1 := f32 y1 0; bx2 := f32 x2 0; by2 := f32 y2 0 |}.

Definition alice_row : vec := [f32 19 0; f32 5 0; f32 3 0; f32 2 0; f32 1 0].
Definition bob_row : vec := [f32 0 0; f32 0 0; f32 0 0; f32 0 0; f32 7 0].
Definition bob_row' : vec := [f32 0 0; f32 0 0; f32 0 0; f32 3 0; f32 4 0].

(** The embedding is chosen by the column of the crop's first pixel
    (after the channel swap the column is the third channel):
    column 0 is close to alice (cosine 0.95), column 1 is far from
    everyone (cosine 0.25 at best), column 2 is the zero vector,
    column 3 makes the embedder fail. *)
Definition embed (face_img : image) : result vec :=
  match face_img with
  | ((_, _, 0) :: _) :: _ => Ok [f32 1 0; f32 0 0; f32 0 0; f32 0 0; f32 0 0]
  | ((_, _, 1) :: _) :: _ => Ok [f32 0 0; f32 1 0; f32 0 0; f32 0 0; f32 0 0]
  | ((_, _, 2) :: _) :: _ => Ok [f32 0 0; f32 0 0; f32 0 0; f32 0 0; f32 0 0]
  | _ => Raise (Exception "EmbeddingError")
  end.

Definition server (svm : vec -> result Z) : FaceRecognitionServer :=
  {| facenet := embed;
     model := fun _ => Ok [[mk_box 0 0 2 2; mk_box 1 1 3 4]];
     svm_model := svm;
     Y := [bob_row; alice_row; bob_row'];
     labels := ["bob"; "alice"; "bob"]%string |}.

Definition with_boxes (results : result (list (list Box)))
    (srv : FaceRecognitionServer) : FaceRecognitionServer :=
  {| facenet := facenet srv; model := fun _ => results;
     svm_model := svm_model srv; Y := Y srv; labels := labels srv |}.

(** Every read gives [frame], resizing keeps the crop, the clock
    shows 1000 + k at interaction k, [send_fails] tells which sends
    fail and [sched] which handlers run during which interaction. *)
Definition environment (send_fails : handle -> bool)
    (sched : nat -> list conn_event) : Env :=
  {| cap_isOpened := true;
     cap_read := fun _ => Some frame;
     cv2_resize := fun im => Ok im;
     time_ms := fun k => 1000 + Z.of_nat k;
     json_dumps := fun p => ("payload with " ++ str (length (faces p)) ++ " faces")%string;
     ws_send := fun _ ws _ =>
       if send_fails ws then Raise (Exception "ConnectionClosed") else Ok tt;
     scheduled := sched;
     remote_address := fun ws => ("10.0.0." ++ str ws)%string |}.

Definition quiet : Env := environment (fun _ => false) (fun _ => []).

(** The frame as [process_frame] sees it after the channel swap. *)
Definition rgb_frame : image :=
  repeat (map (fun c => (0, 0, c)) [0; 1; 2; 3; 4; 5]) 4.

(** The probe of column 0, its score against alice's row (the float32
    nearest to 0.95) and the score of column 1 (0.25). *)
Definition probe : vec := [f32 1 0; f32 0 0; f32 0 0; f32 0 0; f32 0 0].
Definition score_095 : float := S754_finite false 15938355 (-24).
Definition score_025 : float := S754_finite false 8388608 (-25).

(** Five boxes in two results: a face, an empty crop, a crop the
    embedder fails on, a face, and a crop with the zero embedding. *)
Definition five_boxes : list (list Box) :=
  [[mk_box 0 0 2 2; mk_box 5 5 1 1];
   [mk_box 3 0 5 2; mk_box 1 1 3 4; mk_box 2 0 3 1]].

Definition face (id name : string) (confidence : float) (box : list Z)
    (timestamp : Z) : DetectedFace :=
  {| f_id := id; f_name := name; f_confidence := confidence;
     f_box := box; f_timestamp := timestamp |}.

(** The server whose SVM always predicts the class [idx], and the one
    whose detector fails. *)
Definition predicting (idx : Z) : FaceRecognitionServer := server (fun _ => Ok idx).

Definition broken_detector : FaceRecognitionServer :=
  with_boxes (Raise (Exception "RuntimeError: CUDA out of memory")) (predicting 0).

(** Client 2 closes its connection while the loop awaits its first
    send, and the send to client 1 fails. *)
Definition flaky : Env :=
  environment (fun ws => Nat.eqb ws 1)
              (fun k => match k with O => [Closed 2%nat] | _ => [] end).

Definition empty_payload : FramePayload :=
  {| status := {| isDetecting := true; lastUpdated := 7 |}; faces := [] |}.

(** The connection set after three clients connected. *)
Definition three_joined (env : Env) : state :=
  register env 3%nat (register env 2%nat (register env 1%nat initial_state)).

(** The connection set after three clients connected and the second
    one left. *)
Definition three_joined_one_left (env : Env) : state :=
  unregister env 2%nat
    (register env 3%nat (register env 2%nat (register env 1%nat initial_state))).
End Demo.

(** ** Observations on traces *)

(** The calls of [ws.send], oldest first. *)
Definition sends (tr : list event) : list (handle * string) :=
  flat_map (fun e => match e with WsSend ws data => [(ws, data)] | _ => [] end) tr.

(** The payloads given to [json.dumps], oldest first. *)
Definition dumps (tr : list event) : list FramePayload :=
  flat_map (fun e => match e with JsonDumps p => [p] | _ => [] end) tr.

(** The error lines of the log, oldest first. *)
Definition errors (tr : list event) : list string :=
  flat_map (fun e => match e with LogError msg => [msg] | _ => [] end) tr.

(** The subscribers that [ws.send] was called on between two states. *)
Definition addressed (s s' : state) : list handle :=
  map fst (skipn (length (sends (trace s))) (sends (trace s'))).

(** The payloads given to [json.dumps] between two states. *)
Definition serialized (s s' : state) : list FramePayload :=
  skipn (length (dumps (trace s))) (dumps (trace s')).

(** The error lines that the sends to [subscribers] leave in the log
    when the first of them is the interaction number [from]. *)
Fixpoint send_errors (env : Env) (data : string) (from : nat)
    (subscribers : list handle) : list string :=
  match subscribers with
  | [] => []
  | ws :: rest =>
      match ws_send env from ws data with
      | Ok _ => []
      | Raise e => [("Failed to send to client: " ++ exn_str e)%string]
      end ++ send_errors env data (S from) rest
  end.

(** What [add] and [remove] of a handler do to the set alone. *)
Definition apply_event (reg : gset handle) (ev : conn_event) : gset handle :=
  match ev with
  | Connected ws => {[ ws ]} ∪ reg
  | Closed ws => reg ∖ {[ ws ]}
  end.

(** The handlers scheduled during the [k] interactions from [from] on. *)
Definition scheduled_between (env : Env) (from k : nat) : list conn_event :=
  flat_map (scheduled env) (seq from k).

(** ** How one box ends *)

Inductive verdict : Type :=
| Emitted       (* a face was appended *)
| Skipped       (* empty crop: the [continue] of line 55 *)
| Failed        (* an [Exception], caught at line 74 *)
| Interrupted.  (* not an [Exception]: leaves [process_frame] *)

Definition verdict_of {A : Type} (r : result (option A)) : verdict :=
  match r with
  | Ok (Some _) => Emitted
  | Ok None => Skipped
  | Raise (Exception _) => Failed
  | Raise (BaseException _) => Interrupted
  end.

Definition verdict_eqb (a b : verdict) : bool :=
  match a, b with
  | Emitted, Emitted | Skipped, Skipped | Failed, Failed
  | Interrupted, Interrupted => true
  | _, _ => false
  end.

(** No collaborator raises anything but an [Exception]: the process is
    not being interrupted or cancelled. *)
Definition benign {A : Type} (r : result A) : bool :=
  match r with Raise (BaseException _) => false | _ => true end.

Definition no_interrupt (self : FaceRecognitionServer) (env : Env) : Prop :=
  (forall im, benign (cv2_resize env im) = true) /\
  (forall im, benign (facenet self im) = true) /\
  (forall v, benign (svm_model self v) = true) /\
  (forall k ws data, benign (ws_send env k ws data) = true).

Definition ids_positional (fs : list DetectedFace) : Prop :=
  forall (i : nat) (f : DetectedFace), nth_error fs i = Some f -> f_id f = str i.

(** The face [f] is what [face_try] appended for the box [b]. *)
Definition came_from (prec emax : Z) (self : FaceRecognitionServer) (env : Env)
    (rgb_img : image) (f : DetectedFace) (b : Box) : Prop :=
  exists (n : nat) (s s' : state),
    face_try prec emax self env rgb_img n b s = (Ok (Some f), s').

(** A step of the loop that neither touches the connection set nor
    talks to a subscriber. *)
Definition silent (s s' : state) : Prop :=
  active_connections s' = active_connections s /\
  sends (trace s') = sends (trace s) /\
  dumps (trace s') = dumps (trace s).

(** The error lines of [s] are kept, in order, in [s']. *)
Definition keeps_errors (s s' : state) : Prop :=
  exists more : list string, errors (trace s') = errors (trace s) ++ more.

(** How [face_try] ends on a box, observed with no face collected yet
    in the initial state; it ends the same way with any number of faces
    collected and in any state ([face_verdict_stable]). *)
Definition face_verdict (prec emax : Z) (self : FaceRecognitionServer) (env : Env)
    (rgb_img : image) (box : Box) : verdict :=
  verdict_of (fst (face_try prec emax self env rgb_img 0 box initial_state)).

Definition emits (prec emax : Z) (self : FaceRecognitionServer) (env : Env)
    (rgb_img : image) (box : Box) : bool :=
  verdict_eqb (face_verdict prec emax self env rgb_img box) Emitted.

(** ** The rest of initialize_models and handle_connection *)

(** The position of a label among the classes (their number when it is
    not one of them). *)
Fixpoint position (s : string) (classes : list string) : nat :=
  match classes with
  | [] => 0%nat
  | x :: rest => if String.eqb s x then 0%nat else S (position s rest)
  end.

(** [LabelEncoder().fit_transform(labels)]: for each label its index in
    the sorted classes (line 35, [self.encoded_labels]). *)
Definition fit_transform (labels : list string) : list Z :=
  map (fun s => Z.of_nat (position s (fit_classes labels))) labels.

Definition encoded_labels (self : FaceRecognitionServer) : list Z :=
  fit_transform (labels self).

(** [handle_connection] from the moment [wait_closed] has ended, with
    [closed] as its outcome: the [finally] block runs in either case;
    a [KeyError] of [remove] replaces the outcome. *)
Definition handle_connection_exit (env : Env) (ws : handle) (closed : result unit)
    (s : state) : result unit * state :=
  (if decide (ws ∈ active_connections s) then closed
   else Raise (Exception "KeyError"),
   unregister env ws s).

(** [handle_connection] as a whole: the websocket is added, the
    handlers [others] of other connections run while this one awaits
    [wait_closed], and the [finally] block ends it. *)
Definition handle_connection (env : Env) (ws : handle) (others : list conn_event)
    (closed : result unit) (s : state) : result unit * state :=
  handle_connection_exit env ws closed
    (fold_left (run_handler env) others (register env ws s)).

(** The websocket an event is about, and the last event about [ws]. *)
Definition event_handle (ev : conn_event) : handle :=
  match ev with Connected w => w | Closed w => w end.

Definition last_event (ws : handle) (evs : list conn_event) : option conn_event :=
  find (fun ev => Nat.eqb (event_handle ev) ws) (rev evs).

(** The warning lines of the log, oldest first. *)
Definition warnings (tr : list event) : list string :=
  flat_map (fun e => match e with LogWarning msg => [msg] | _ => [] end) tr.

(** Labels in strictly increasing order. *)
Definition label_lt (a b : string) : Prop := String.compare a b = Lt.

(** A float that is not below zero: zero, a positive number, plus
    infinity, or NaN. *)
Definition not_negative (x : float) : bool :=
  match x with
  | S754_zero _ | S754_infinity false | S754_finite false _ _ | S754_nan => true
  | _ => false
  end.

(** ** Further deployments, for the examples *)

Module Cases.
(** The demo server with another embedder, gallery and labels. *)
Definition variant (embedder : image -> result vec) (gallery : list vec)
    (names : list string) (results : list (list Box)) : FaceRecognitionServer :=
  {| facenet := embedder;
     model := fun _ => Ok results;
     svm_model := fun _ => Ok 0;
     Y := gallery;
     labels := names |}.

(** An embedder of dimension 3 against the gallery of dimension 5. *)
Definition short_embedder : FaceRecognitionServer :=
  variant (fun _ => Ok [Demo.f32 1 0; Demo.f32 0 0; Demo.f32 0 0])
          (Y (Demo.predicting 0)) (labels (Demo.predicting 0))
          [[Demo.mk_box 0 0 2 2]].

(** A gallery whose second row is all zero. *)
Definition zero_row : vec := repeat pos_zero 5.

Definition zero_row_gallery : FaceRecognitionServer :=
  variant Demo.embed [Demo.alice_row; zero_row] ["alice"; "nobody"]%string
          [[Demo.mk_box 0 0 2 2; Demo.mk_box 1 1 3 4]].

(** An embedder that answers in dimension 5 for the crops that start in
    column 0 and in dimension 3 for all others, on two boxes: for the
    second box [np.dot] raises inside [calculate_similarity]. *)
Definition one_similarity_failure : FaceRecognitionServer :=
  variant (fun face_img =>
             match face_img with
             | ((_, _, 0) :: _) :: _ => Ok Demo.probe
             | _ => Ok [Demo.f32 1 0; Demo.f32 0 0; Demo.f32 0 0]
             end)
          (Y (Demo.predicting 0)) (labels (Demo.predicting 0))
          [[Demo.mk_box 0 0 2 2; Demo.mk_box 1 1 3 4]].

(** No gallery at all. *)
Definition empty_gallery : FaceRecognitionServer :=
  variant Demo.embed [] [] [[Demo.mk_box 0 0 2 2; Demo.mk_box 1 1 3 4]].

(** A capture device that delivers no frame, while two clients try to
    connect. *)
Definition no_frames : Env :=
  {| cap_isOpened := true;
     cap_read := fun _ => None;
     cv2_resize := fun im => Ok im;
     time_ms := fun k => 1000 + Z.of_nat k;
     json_dumps := fun _ => "{}"%string;
     ws_send := fun _ _ _ => Ok tt;
     scheduled := fun _ => [Connected 1%nat; Connected 2%nat];
     remote_address := fun _ => "10.0.0.1"%string |}.
End Cases.

(** A float that [int] accepts: a zero or a finite number. *)
Definition finite_float (x : float) : bool :=
  match x with
  | S754_zero _ | S754_finite _ _ _ => true
  | _ => false
  end.

(** ** What one box leaves in the error log *)

(** The lines that the loop body of lines 52-76 writes to the error
    log for one box: the line of [calculate_similarity] when NumPy
    raised in it, and, when the [try] ended in an [Exception], the two
    lines of the handler. The run observed is the one with no face
    collected yet in the initial state; the lines are the same with any
    number of faces collected and in any state ([face_try_log_stable]). *)
Definition box_log (prec emax : Z) (self : FaceRecognitionServer) (env : Env)
    (rgb_img : image) (box : Box) : list string :=
  let out := face_try prec emax self env rgb_img 0 box initial_state in
  errors (trace (snd out))
  ++ match fst out with
     | Raise (Exception msg) =>
         [("Face processing error: " ++ msg)%string;
          "Traceback (most recent call last): ..."%string]
     | _ => []
     end.

(** The exception a call ended with, if any. *)
Definition raised {A : Type} (r : result A) : option exn :=
  match r with Raise e => Some e | Ok _ => None end.

(** * Properties *)

(** ** Arithmetic on a zero vector *)

Section ZeroProbe.
Variables prec emax : Z.

Lemma mul_zero_or_nan_l (x y : float) :
  zero_or_nan x = true -> zero_or_nan (SFmul prec emax x y) = true.
Proof. destruct x, y; simpl; intros H; try discriminate; reflexivity. Qed.

Lemma add_zero_or_nan (x y : float) :
  zero_or_nan x = true -> zero_or_nan y = true ->
  zero_or_nan (SFadd prec emax x y) = true.
Proof.
  destruct x as [[]| | |], y as [[]| | |]; simpl; intros Hx Hy;
    try discriminate; reflexivity.
Qed.

Lemma sqrt_zero_or_nan (x : float) :
  zero_or_nan x = true -> zero_or_nan (SFsqrt prec emax x) = true.
Proof. destruct x; simpl; intros H; try discriminate; reflexivity. Qed.

Lemma div_zero_or_nan (x y : float) :
  zero_or_nan x = true -> zero_or_nan y = true -> SFdiv prec emax x y = S754_nan.
Proof.
  destruct x, y; simpl; intros Hx Hy; try discriminate; reflexivity.
Qed.

Lemma is_zero_zero_or_nan (x : float) : is_zero x = true -> zero_or_nan x = true.
Proof. unfold zero_or_nan. intros ->. reflexivity. Qed.

Lemma dot_from_zero_or_nan (a b : vec) :
  forallb is_zero a = true ->
  forall acc, zero_or_nan acc = true ->
  zero_or_nan (dot_from prec emax acc a b) = true.
Proof.
  revert b. induction a as [|x a IH]; intros [|y b] Ha acc Hacc; simpl; auto.
  simpl in Ha. apply andb_prop in Ha as [Hx Ha].
  apply IH; [exact Ha|].
  apply add_zero_or_nan; [exact Hacc|].
  apply mul_zero_or_nan_l, is_zero_zero_or_nan, Hx.
Qed.

Lemma dot_zero_or_nan (a b : vec) :
  forallb is_zero a = true -> zero_or_nan (dot prec emax a b) = true.
Proof. intros Ha. apply dot_from_zero_or_nan; [exact Ha|reflexivity]. Qed.

(** Against any row, an all-zero embedding scores NaN: the quotient
    of line 40 is 0/0 (or has a NaN operand already). *)
Lemma cosine_row_zero (embedding row : vec) :
  forallb is_zero embedding = true ->
  cosine_row prec emax embedding row = S754_nan.
Proof.
  intros Hz. unfold cosine_row, norm.
  apply div_zero_or_nan.
  - apply dot_zero_or_nan, Hz.
  - apply mul_zero_or_nan_l, sqrt_zero_or_nan, dot_zero_or_nan, Hz.
Qed.

Lemma map_cosine_row_zero (embedding : vec) (rows : list vec) :
  forallb is_zero embedding = true ->
  map (cosine_row prec emax embedding) rows = repeat S754_nan (length rows).
Proof.
  intros Hz. induction rows as [|r rows IH]; simpl; [reflexivity|].
  rewrite cosine_row_zero by exact Hz. f_equal. exact IH.
Qed.

Lemma fold_maximum_nan (n : nat) :
  fold_left np_maximum (repeat S754_nan n) S754_nan = S754_nan.
Proof. induction n as [|n IH]; simpl; [reflexivity|exact IH]. Qed.

Lemma np_max_all_nan (n : nat) :
  n <> 0%nat -> np_max (repeat S754_nan n) = Ok S754_nan.
Proof.
  destruct n as [|n]; [congruence|]. intros _. simpl.
  f_equal. apply fold_maximum_nan.
Qed.

Lemma calculate_similarity_zero (embedding : vec) (gallery : list vec) :
  forallb is_zero embedding = true ->
  shapes_aligned embedding gallery = true ->
  calculate_similarity prec emax embedding gallery
  = (repeat S754_nan (length gallery), None).
Proof.
  intros Hz Hs. unfold calculate_similarity. rewrite Hs.
  f_equal. apply map_cosine_row_zero, Hz.
Qed.
End ZeroProbe.

(** ** One box *)

Section FaceTry.
Variables prec emax : Z.
Variable self : FaceRecognitionServer.
Variable env : Env.

Lemma similarity_ok (embedding : vec) (s : state) :
  similarity prec emax self embedding s
  = (Ok (fst (calculate_similarity prec emax embedding (Y self))),
     snd (similarity prec emax self embedding s)).
Proof.
  unfold similarity.
  destruct (calculate_similarity prec emax embedding (Y self)) as [sims [e|]];
    reflexivity.
Qed.

Lemma similarity_steps (embedding : vec) (s : state) :
  steps (snd (similarity prec emax self embedding s)) = steps s.
Proof.
  unfold similarity.
  destruct (calculate_similarity prec emax embedding (Y self)) as [sims [e|]];
    reflexivity.
Qed.

(** What an appended face was made from. *)
Lemma face_try_inv (rgb_img : image) (n : nat) (box : Box) (s s' : state)
    (f : DetectedFace) :
  face_try prec emax self env rgb_img n box s = (Ok (Some f), s') ->
  exists x1 y1 x2 y2 face_img embedding c,
    py_int (bx1 box) = Ok x1 /\ py_int (by1 box) = Ok y1 /\
    py_int (bx2 box) = Ok x2 /\ py_int (by2 box) = Ok y2 /\
    image_size (crop rgb_img y1 y2 x1 x2) <> 0 /\
    cv2_resize env (crop rgb_img y1 y2 x1 x2) = Ok face_img /\
    facenet self face_img = Ok embedding /\
    np_max (fst (calculate_similarity prec emax embedding (Y self))) = Ok c /\
    (if SFltb (threshold prec emax) c
     then exists face_idx, svm_model self embedding = Ok face_idx /\
            inverse_transform (encoder self) face_idx = Ok (f_name f)
     else f_name f = "Visitor"%string) /\
    f_id f = str n /\ f_confidence f = c /\
    f_box f = [x1; y1; x2 - x1; y2 - y1] /\
    f_timestamp f = time_ms env (steps s) /\
    s' = tick (snd (similarity prec emax self embedding s)).
Proof.
  unfold face_try, bind, lift, ret, now_ms. intros H.
  destruct (py_int (bx1 box)) as [x1|] eqn:E1; [|discriminate].
  destruct (py_int (by1 box)) as [y1|] eqn:E2; [|discriminate].
  destruct (py_int (bx2 box)) as [x2|] eqn:E3; [|discriminate].
  destruct (py_int (by2 box)) as [y2|] eqn:E4; [|discriminate].
  destruct (image_size (crop rgb_img y1 y2 x1 x2) =? 0) eqn:Esz; [discriminate|].
  apply Z.eqb_neq in Esz.
  destruct (cv2_resize env (crop rgb_img y1 y2 x1 x2)) as [face_img|] eqn:Er;
    [|discriminate].
  destruct (facenet self face_img) as [embedding|] eqn:Ef; [|discriminate].
  rewrite similarity_ok in H.
  destruct (np_max (fst (calculate_similarity prec emax embedding (Y self))))
    as [c|] eqn:Em; [|discriminate].
  exists x1, y1, x2, y2, face_img, embedding, c.
  destruct (SFltb (threshold prec emax) c) eqn:Et.
  - destruct (svm_model self embedding) as [idx|] eqn:Es; [|discriminate].
    destruct (inverse_transform (encoder self) idx) as [name|] eqn:Ei; [|discriminate].
    injection H as <- <-. simpl. rewrite similarity_steps.
    repeat split; try assumption; try reflexivity.
    exists idx. split; [reflexivity|assumption].
  - injection H as <- <-. simpl. rewrite similarity_steps.
    repeat split; try assumption; reflexivity.
Qed.

(** The answers of the collaborators that make a box end as a face. *)
Lemma face_try_emits (rgb_img : image) (n : nat) (box : Box) (s : state)
    (x1 y1 x2 y2 : Z) (face_img : image) (embedding : vec) (c : float)
    (name : string) :
  py_int (bx1 box) = Ok x1 -> py_int (by1 box) = Ok y1 ->
  py_int (bx2 box) = Ok x2 -> py_int (by2 box) = Ok y2 ->
  image_size (crop rgb_img y1 y2 x1 x2) <> 0 ->
  cv2_resize env (crop rgb_img y1 y2 x1 x2) = Ok face_img ->
  facenet self face_img = Ok embedding ->
  np_max (fst (calculate_similarity prec emax embedding (Y self))) = Ok c ->
  (if SFltb (threshold prec emax) c
   then exists face_idx, svm_model self embedding = Ok face_idx /\
          inverse_transform (encoder self) face_idx = Ok name
   else name = "Visitor"%string) ->
  face_try prec emax self env rgb_img n box s
  = (Ok (Some {| f_id := str n; f_name := name; f_confidence := c;
                 f_box := [x1; y1; x2 - x1; y2 - y1];
                 f_timestamp := time_ms env (steps s) |}),
     tick (snd (similarity prec emax self embedding s))).
Proof.
  intros E1 E2 E3 E4 Esz Er Ef Em Hname.
  unfold face_try, bind, lift, ret, now_ms.
  rewrite E1, E2, E3, E4.
  apply Z.eqb_neq in Esz. rewrite Esz, Er, Ef, similarity_ok, Em.
  destruct (SFltb (threshold prec emax) c).
  - destruct Hname as (idx & -> & ->). rewrite similarity_steps. reflexivity.
  - rewrite Hname, similarity_steps. reflexivity.
Qed.

(** How a box ends depends neither on the faces collected so far nor
    on the state. *)
Lemma face_verdict_stable (rgb_img : image) (n : nat) (box : Box) (s : state) :
  verdict_of (fst (face_try prec emax self env rgb_img n box s))
  = face_verdict prec emax self env rgb_img box.
Proof.
  unfold face_verdict, face_try, bind, lift, ret, now_ms.
  destruct (py_int (bx1 box)) as [x1|[]]; [|reflexivity..].
  destruct (py_int (by1 box)) as [y1|[]]; [|reflexivity..].
  destruct (py_int (bx2 box)) as [x2|[]]; [|reflexivity..].
  destruct (py_int (by2 box)) as [y2|[]]; [|reflexivity..].
  destruct (image_size (crop rgb_img y1 y2 x1 x2) =? 0); [reflexivity|].
  destruct (cv2_resize env (crop rgb_img y1 y2 x1 x2)) as [face_img|[]];
    [|reflexivity..].
  destruct (facenet self face_img) as [embedding|[]]; [|reflexivity..].
  unfold similarity.
  destruct (calculate_similarity prec emax embedding (Y self)) as [sims [e|]];
    (destruct (np_max sims) as [c|[]]; [|reflexivity..];
     destruct (SFltb (threshold prec emax) c); [|reflexivity];
     destruct (svm_model self embedding) as [idx|[]]; [|reflexivity..];
     destruct (inverse_transform (encoder self) idx) as [name|[]]; reflexivity).
Qed.
End FaceTry.

(** ** One frame *)

Section Frame.
Variables prec emax : Z.
Variable self : FaceRecognitionServer.
Variable env : Env.

Local Abbreviation face_try' := (face_try prec emax self env).
Local Abbreviation process_boxes' := (process_boxes prec emax self env).
Local Abbreviation process_results' := (process_results prec emax self env).
Local Abbreviation process_frame' := (process_frame prec emax self env).
Local Abbreviation face_verdict' := (face_verdict prec emax self env).
Local Abbreviation emits' := (emits prec emax self env).
Local Abbreviation came_from' := (came_from prec emax self env).

Lemma errors_emit_app (e : event) (s : state) :
  errors (trace (emit e s)) = errors (trace s) ++ errors [e].
Proof. unfold errors; simpl. apply flat_map_app. Qed.

Lemma silent_refl (s : state) : silent s s.
Proof. repeat split. Qed.

Lemma silent_trans (s1 s2 s3 : state) : silent s1 s2 -> silent s2 s3 -> silent s1 s3.
Proof.
  intros (A1 & B1 & C1) (A2 & B2 & C2).
  repeat split; congruence.
Qed.

Lemma silent_tick (s : state) : silent s (tick s).
Proof. repeat split. Qed.

Lemma silent_log_error (msg : string) (s : state) : silent s (emit (LogError msg) s).
Proof.
  unfold silent, sends, dumps; simpl.
  rewrite !flat_map_app; simpl. rewrite !app_nil_r. repeat split.
Qed.

Lemma silent_log_info (msg : string) (s : state) : silent s (emit (LogInfo msg) s).
Proof.
  unfold silent, sends, dumps; simpl.
  rewrite !flat_map_app; simpl. rewrite !app_nil_r. repeat split.
Qed.

Lemma silent_similarity (embedding : vec) (s : state) :
  silent s (snd (similarity prec emax self embedding s)).
Proof.
  unfold similarity.
  destruct (calculate_similarity prec emax embedding (Y self)) as [sims [e|]]; simpl.
  - apply silent_log_error.
  - apply silent_refl.
Qed.

Lemma face_try_silent (rgb_img : image) (n : nat) (box : Box) (s : state) :
  silent s (snd (face_try' rgb_img n box s)).
Proof.
  unfold face_try, bind, lift, ret, now_ms.
  destruct (py_int (bx1 box)) as [x1|]; [|apply silent_refl].
  destruct (py_int (by1 box)) as [y1|]; [|apply silent_refl].
  destruct (py_int (bx2 box)) as [x2|]; [|apply silent_refl].
  destruct (py_int (by2 box)) as [y2|]; [|apply silent_refl].
  destruct (image_size (crop rgb_img y1 y2 x1 x2) =? 0); [apply silent_refl|].
  destruct (cv2_resize env (crop rgb_img y1 y2 x1 x2)) as [face_img|];
    [|apply silent_refl].
  destruct (facenet self face_img) as [embedding|]; [|apply silent_refl].
  rewrite similarity_ok.
  pose proof (silent_similarity embedding s) as Hs.
  destruct (np_max (fst (calculate_similarity prec emax embedding (Y self))))
    as [c|]; [|exact Hs].
  destruct (SFltb (threshold prec emax) c).
  - destruct (svm_model self embedding) as [idx|]; [|exact Hs].
    destruct (inverse_transform (encoder self) idx) as [name|]; [|exact Hs].
    simpl. eapply silent_trans; [exact Hs|apply silent_tick].
  - simpl. eapply silent_trans; [exact Hs|apply silent_tick].
Qed.

Lemma process_boxes_silent (rgb_img : image) (boxes : list Box) :
  forall (acc : list DetectedFace) (s : state),
    silent s (snd (process_boxes' rgb_img boxes acc s)).
Proof.
  induction boxes as [|box rest IH]; intros acc s; simpl.
  - apply silent_refl.
  - pose proof (face_try_silent rgb_img (length acc) box s) as Hf.
    destruct (face_try' rgb_img (length acc) box s) as [[[f|]|[msg|msg]] s1]; simpl in Hf.
    + eapply silent_trans; [exact Hf|apply IH].
    + eapply silent_trans; [exact Hf|apply IH].
    + eapply silent_trans; [exact Hf|].
      eapply silent_trans; [apply silent_log_error|].
      eapply silent_trans; [apply silent_log_error|apply IH].
    + exact Hf.
Qed.

Lemma process_boxes_app (rgb_img : image) (a b : list Box) :
  forall (acc : list DetectedFace) (s : state),
    process_boxes' rgb_img (a ++ b) acc s
    = bind (process_boxes' rgb_img a acc) (process_boxes' rgb_img b) s.
Proof.
  induction a as [|box a IH]; intros acc s; simpl.
  - reflexivity.
  - unfold bind at 1. simpl.
    destruct (face_try' rgb_img (length acc) box s) as [[[f|]|[msg|msg]] s1];
      try apply IH; reflexivity.
Qed.

(** The two nested loops visit the boxes of all results in order. *)
Lemma process_results_concat (rgb_img : image) (results : list (list Box)) :
  forall (acc : list DetectedFace) (s : state),
    process_results' rgb_img results acc s
    = process_boxes' rgb_img (concat results) acc s.
Proof.
  induction results as [|r results IH]; intros acc s; simpl.
  - reflexivity.
  - rewrite process_boxes_app. unfold bind.
    destruct (process_boxes' rgb_img r acc s) as [[faces|e] s1]; [apply IH|reflexivity].
Qed.

(** The loop over boxes that are not interrupted runs to its end; it
    appends, in order, one face for each box that emits. *)
Lemma process_boxes_run (rgb_img : image) (boxes : list Box) :
  Forall (fun b => face_verdict' rgb_img b <> Interrupted) boxes ->
  forall (acc : list DetectedFace) (s : state),
  exists (new : list DetectedFace) (s' : state),
    process_boxes' rgb_img boxes acc s = (Ok (acc ++ new), s') /\
    Forall2 (came_from' rgb_img) new (List.filter (emits' rgb_img) boxes).
Proof.
  induction 1 as [|box rest Hbox Hrest IH]; intros acc s; simpl.
  - exists [], s. rewrite app_nil_r. split; [reflexivity|constructor].
  - pose proof (face_verdict_stable prec emax self env rgb_img (length acc) box s) as Hv.
    unfold emits at 1.
    destruct (face_try' rgb_img (length acc) box s) as [[[f|]|[msg|msg]] s1] eqn:E;
      simpl in Hv; rewrite <- Hv in *; simpl.
    + destruct (IH (acc ++ [f]) s1) as (new & s' & Hrun & Hnew).
      exists (f :: new), s'. split.
      * rewrite Hrun. f_equal. f_equal. rewrite <- app_assoc. reflexivity.
      * constructor; [|exact Hnew]. exists (length acc), s, s1. exact E.
    + apply IH.
    + apply IH.
    + congruence.
Qed.

(** Each new face is numbered by the length of the list it joins. *)
Lemma ids_positional_snoc (fs : list DetectedFace) (f : DetectedFace) :
  ids_positional fs -> f_id f = str (length fs) -> ids_positional (fs ++ [f]).
Proof.
  intros Hfs Hf i g Hi.
  destruct (Nat.lt_ge_cases i (length fs)) as [Hlt|Hge].
  - rewrite nth_error_app1 in Hi by exact Hlt. apply Hfs, Hi.
  - rewrite nth_error_app2 in Hi by exact Hge.
    destruct (i - length fs)%nat as [|k] eqn:Ek; simpl in Hi.
    + injection Hi as <-. rewrite Hf. f_equal. lia.
    + destruct k; discriminate.
Qed.

Lemma process_boxes_ids (rgb_img : image) (boxes : list Box) :
  forall (acc faces : list DetectedFace) (s s' : state),
    ids_positional acc ->
    process_boxes' rgb_img boxes acc s = (Ok faces, s') ->
    ids_positional faces.
Proof.
  induction boxes as [|box rest IH]; intros acc faces s s' Hacc Hrun; simpl in Hrun.
  - unfold ret in Hrun. injection Hrun as <- _. exact Hacc.
  - destruct (face_try' rgb_img (length acc) box s) as [[[f|]|[msg|msg]] s1] eqn:E.
    + eapply IH; [|exact Hrun].
      apply ids_positional_snoc; [exact Hacc|].
      apply face_try_inv in E.
      destruct E as (x1 & y1 & x2 & y2 & fi & em & c & E). tauto.
    + eapply IH; eauto.
    + eapply IH; eauto.
    + discriminate.
Qed.

(** Whatever the loop returns was appended by [face_try] for one of
    the boxes. *)
Lemma process_boxes_faces (rgb_img : image) (boxes : list Box) :
  forall (acc faces : list DetectedFace) (s s' : state),
    process_boxes' rgb_img boxes acc s = (Ok faces, s') ->
    exists new : list DetectedFace,
      faces = acc ++ new /\
      Forall (fun f => exists b, In b boxes /\ came_from' rgb_img f b) new.
Proof.
  induction boxes as [|box rest IH]; intros acc faces s s' Hrun; simpl in Hrun.
  - unfold ret in Hrun. injection Hrun as <- _.
    exists []. rewrite app_nil_r. split; [reflexivity|constructor].
  - destruct (face_try' rgb_img (length acc) box s) as [[[f|]|[msg|msg]] s1] eqn:E.
    + apply IH in Hrun. destruct Hrun as (new & -> & Hnew).
      exists (f :: new). rewrite <- app_assoc. split; [reflexivity|].
      constructor.
      * exists box. split; [left; reflexivity|]. exists (length acc), s, s1. exact E.
      * eapply List.Forall_impl; [|exact Hnew].
        intros g (b & Hb & Hg). exists b. split; [right; exact Hb|exact Hg].
    + apply IH in Hrun. destruct Hrun as (new & -> & Hnew).
      exists new. split; [reflexivity|].
      eapply List.Forall_impl; [|exact Hnew].
      intros g (b & Hb & Hg). exists b. split; [right; exact Hb|exact Hg].
    + apply IH in Hrun. destruct Hrun as (new & -> & Hnew).
      exists new. split; [reflexivity|].
      eapply List.Forall_impl; [|exact Hnew].
      intros g (b & Hb & Hg). exists b. split; [right; exact Hb|exact Hg].
    + discriminate.
Qed.

(** A frame that was processed went through the colour conversion and
    the detector, and each of its faces comes from a detected box. *)
Lemma process_frame_faces (frame : image) (faces : list DetectedFace) (s s' : state) :
  process_frame' frame s = (Ok faces, s') ->
  exists (rgb_img : image) (results : list (list Box)),
    cv2_cvtColor frame = Ok rgb_img /\
    model self frame = Ok results /\
    process_boxes' rgb_img (concat results) [] s = (Ok faces, s') /\
    Forall (fun f => exists b, In b (concat results) /\ came_from' rgb_img f b) faces.
Proof.
  unfold process_frame, bind, lift. intros Hrun.
  destruct (cv2_cvtColor frame) as [rgb_img|] eqn:Ec; [|discriminate].
  destruct (model self frame) as [results|] eqn:Em; [|discriminate].
  rewrite process_results_concat in Hrun.
  exists rgb_img, results. repeat split; try assumption.
  apply process_boxes_faces in Hrun. destruct Hrun as (new & -> & Hnew). exact Hnew.
Qed.

Lemma keeps_errors_refl (s : state) : keeps_errors s s.
Proof. exists []. symmetry. apply app_nil_r. Qed.

Lemma keeps_errors_trans (s1 s2 s3 : state) :
  keeps_errors s1 s2 -> keeps_errors s2 s3 -> keeps_errors s1 s3.
Proof.
  intros (m1 & H1) (m2 & H2). exists (m1 ++ m2).
  rewrite H2, H1, app_assoc. reflexivity.
Qed.

Lemma keeps_errors_emit (e : event) (s : state) : keeps_errors s (emit e s).
Proof.
  exists (errors [e]). unfold errors; simpl. apply flat_map_app.
Qed.

Lemma keeps_errors_similarity (embedding : vec) (s : state) :
  keeps_errors s (snd (similarity prec emax self embedding s)).
Proof.
  unfold similarity.
  destruct (calculate_similarity prec emax embedding (Y self)) as [sims [e|]]; simpl.
  - apply keeps_errors_emit.
  - apply keeps_errors_refl.
Qed.

Lemma face_try_keeps_errors (rgb_img : image) (n : nat) (box : Box) (s : state) :
  keeps_errors s (snd (face_try' rgb_img n box s)).
Proof.
  unfold face_try, bind, lift, ret, now_ms.
  destruct (py_int (bx1 box)) as [x1|]; [|apply keeps_errors_refl].
  destruct (py_int (by1 box)) as [y1|]; [|apply keeps_errors_refl].
  destruct (py_int (bx2 box)) as [x2|]; [|apply keeps_errors_refl].
  destruct (py_int (by2 box)) as [y2|]; [|apply keeps_errors_refl].
  destruct (image_size (crop rgb_img y1 y2 x1 x2) =? 0); [apply keeps_errors_refl|].
  destruct (cv2_resize env (crop rgb_img y1 y2 x1 x2)) as [face_img|];
    [|apply keeps_errors_refl].
  destruct (facenet self face_img) as [embedding|]; [|apply keeps_errors_refl].
  rewrite similarity_ok.
  pose proof (keeps_errors_similarity embedding s) as Hs.
  destruct (np_max (fst (calculate_similarity prec emax embedding (Y self))))
    as [c|]; [|exact Hs].
  destruct (SFltb (threshold prec emax) c).
  - destruct (svm_model self embedding) as [idx|]; [|exact Hs].
    destruct (inverse_transform (encoder self) idx) as [name|]; exact Hs.
  - exact Hs.
Qed.

Lemma process_boxes_keeps_errors (rgb_img : image) (boxes : list Box) :
  forall (acc : list DetectedFace) (s : state),
    keeps_errors s (snd (process_boxes' rgb_img boxes acc s)).
Proof.
  induction boxes as [|box rest IH]; intros acc s; simpl.
  - apply keeps_errors_refl.
  - pose proof (face_try_keeps_errors rgb_img (length acc) box s) as Hf.
    destruct (face_try' rgb_img (length acc) box s) as [[[f|]|[msg|msg]] s1]; simpl in Hf.
    + eapply keeps_errors_trans; [exact Hf|apply IH].
    + eapply keeps_errors_trans; [exact Hf|apply IH].
    + eapply keeps_errors_trans; [exact Hf|].
      eapply keeps_errors_trans; [apply keeps_errors_emit|].
      eapply keeps_errors_trans; [apply keeps_errors_emit|apply IH].
    + exact Hf.
Qed.

(** Every box that ended in a caught failure has its line in the log
    when the loop over the boxes returns. *)
Lemma process_boxes_logs (rgb_img : image) (boxes : list Box) :
  forall (acc faces : list DetectedFace) (s s' : state) (box : Box),
    process_boxes' rgb_img boxes acc s = (Ok faces, s') ->
    In box boxes ->
    face_verdict' rgb_img box = Failed ->
    exists msg : string,
      In ("Face processing error: " ++ msg)%string (errors (trace s')).
Proof.
  induction boxes as [|b rest IH]; intros acc faces s s' box Hrun Hin Hfail.
  - destruct Hin.
  - simpl in Hrun.
    pose proof (face_verdict_stable prec emax self env rgb_img (length acc) b s) as Hv.
    destruct (face_try' rgb_img (length acc) b s) as [[[f|]|[msg|msg]] s1] eqn:E;
      simpl in Hv; try discriminate;
      destruct Hin as [<- | Hin]; try (eapply IH; eassumption); try congruence.
    exists msg.
    set (s2 := emit (LogError "Traceback (most recent call last): ...")
                 (emit (LogError ("Face processing error: " ++ msg)) s1)) in *.
    pose proof (process_boxes_keeps_errors rgb_img rest acc s2) as (more & Hmore).
    rewrite Hrun in Hmore. simpl in Hmore. rewrite Hmore.
    apply in_or_app. left. unfold errors. rewrite !flat_map_app.
    apply in_or_app. left. apply in_or_app. right. left. reflexivity.
Qed.

(** Collaborators that only raise [Exception]s never interrupt a box. *)
Lemma no_interrupt_verdict (rgb_img : image) (box : Box) :
  no_interrupt self env -> face_verdict' rgb_img box <> Interrupted.
Proof.
  intros (Hr & Hf & Hs & _).
  unfold face_verdict, face_try, bind, lift, ret, now_ms.
  destruct (py_int (bx1 box)) as [x1|e] eqn:E1;
    [|destruct (bx1 box); simpl in E1; inversion E1; discriminate].
  destruct (py_int (by1 box)) as [y1|e] eqn:E2;
    [|destruct (by1 box); simpl in E2; inversion E2; discriminate].
  destruct (py_int (bx2 box)) as [x2|e] eqn:E3;
    [|destruct (bx2 box); simpl in E3; inversion E3; discriminate].
  destruct (py_int (by2 box)) as [y2|e] eqn:E4;
    [|destruct (by2 box); simpl in E4; inversion E4; discriminate].
  destruct (image_size (crop rgb_img y1 y2 x1 x2) =? 0); [discriminate|].
  specialize (Hr (crop rgb_img y1 y2 x1 x2)).
  destruct (cv2_resize env (crop rgb_img y1 y2 x1 x2)) as [face_img|[m|m]];
    [|discriminate..].
  specialize (Hf face_img).
  destruct (facenet self face_img) as [embedding|[m|m]]; [|discriminate..].
  rewrite similarity_ok.
  destruct (fst (calculate_similarity prec emax embedding (Y self))) as [|x xs];
    [discriminate|]. cbn [np_max].
  destruct (SFltb (threshold prec emax) (fold_left np_maximum xs x)); [|discriminate].
  specialize (Hs embedding).
  destruct (svm_model self embedding) as [idx|[m|m]]; [|discriminate..].
  unfold inverse_transform.
  destruct ((0 <=? idx) && (idx <? Z.of_nat (length (encoder self)))); discriminate.
Qed.
End Frame.

(** ** The connection handlers and the fan-out *)

Section FanOut.
Variables prec emax : Z.
Variable self : FaceRecognitionServer.
Variable env : Env.

Lemma sends_emit (e : event) (s : state) :
  sends (trace (emit e s)) = sends (trace s) ++ sends [e].
Proof. unfold sends; simpl. apply flat_map_app. Qed.

Lemma dumps_emit (e : event) (s : state) :
  dumps (trace (emit e s)) = dumps (trace s) ++ dumps [e].
Proof. unfold dumps; simpl. apply flat_map_app. Qed.

Lemma run_handler_spec (ev : conn_event) (s : state) :
  steps (run_handler env s ev) = steps s /\
  active_connections (run_handler env s ev) = apply_event (active_connections s) ev /\
  sends (trace (run_handler env s ev)) = sends (trace s) /\
  dumps (trace (run_handler env s ev)) = dumps (trace s).
Proof.
  destruct ev as [ws|ws]; cbn [run_handler].
  - unfold register. rewrite sends_emit, dumps_emit; simpl.
    rewrite !app_nil_r. repeat split.
  - unfold unregister.
    destruct (decide (ws ∈ active_connections s)) as [Hin|Hout].
    + rewrite sends_emit, dumps_emit; simpl. rewrite !app_nil_r. repeat split.
    + repeat split. simpl. set_solver.
Qed.

Lemma run_handlers_spec (evs : list conn_event) :
  forall s : state,
    steps (fold_left (run_handler env) evs s) = steps s /\
    active_connections (fold_left (run_handler env) evs s)
      = fold_left apply_event evs (active_connections s) /\
    sends (trace (fold_left (run_handler env) evs s)) = sends (trace s) /\
    dumps (trace (fold_left (run_handler env) evs s)) = dumps (trace s).
Proof.
  induction evs as [|ev evs IH]; intros s; simpl.
  - repeat split.
  - destruct (IH (run_handler env s ev)) as (A & B & C & D).
    destruct (run_handler_spec ev s) as (A' & B' & C' & D').
    rewrite A, B, C, D, A', B', C', D'. repeat split.
Qed.

(** A suspension is one interaction; only the handlers scheduled for
    it change the connection set, and they send nothing. *)
Lemma suspend_spec (s : state) :
  steps (suspend env s) = S (steps s) /\
  active_connections (suspend env s)
    = fold_left apply_event (scheduled env (steps s)) (active_connections s) /\
  sends (trace (suspend env s)) = sends (trace s) /\
  dumps (trace (suspend env s)) = dumps (trace s).
Proof.
  unfold suspend; simpl.
  destruct (run_handlers_spec (scheduled env (steps s)) s) as (A & B & C & D).
  rewrite A, B, C, D. repeat split.
Qed.

Lemma scheduled_between_S (from k : nat) :
  scheduled_between env from (S k)
  = scheduled env from ++ scheduled_between env (S from) k.
Proof. reflexivity. Qed.

(** The loop over the copied list: it serialises and sends once per
    subscriber it reaches, it reaches all of them unless it is
    interrupted, and the connection set changes only by the handlers
    scheduled meanwhile. *)
Lemma send_all_spec (response : FramePayload) (subscribers : list handle) :
  forall (s s' : state) (r : result unit),
    send_all env response subscribers s = (r, s') ->
    exists k : nat,
      (k <= length subscribers)%nat /\
      sends (trace s')
        = sends (trace s)
          ++ map (fun ws => (ws, json_dumps env response)) (firstn k subscribers) /\
      dumps (trace s') = dumps (trace s) ++ repeat response k /\
      steps s' = (steps s + k)%nat /\
      active_connections s'
        = fold_left apply_event (scheduled_between env (steps s) k)
            (active_connections s) /\
      (r = Ok tt -> k = length subscribers) /\
      ((forall i ws data, benign (ws_send env i ws data) = true) -> r = Ok tt).
Proof.
  induction subscribers as [|ws rest IH]; intros s s' r Hrun; simpl in Hrun.
  - unfold ret in Hrun. injection Hrun as <- <-.
    exists 0%nat. simpl. rewrite !app_nil_r, Nat.add_0_r. repeat split; auto.
  - set (data := json_dumps env response) in *.
    set (s1 := emit (WsSend ws data) (emit (JsonDumps response) s)) in *.
    assert (Hs1 : steps s1 = steps s) by reflexivity.
    assert (Hsends : sends (trace s1) = sends (trace s) ++ [(ws, data)]).
    { unfold s1. rewrite !sends_emit. simpl. rewrite app_nil_r. reflexivity. }
    assert (Hdumps : dumps (trace s1) = dumps (trace s) ++ [response]).
    { unfold s1. rewrite !dumps_emit. simpl. rewrite app_nil_r. reflexivity. }
    assert (Hconn : active_connections s1 = active_connections s) by reflexivity.
    destruct (suspend_spec s1) as (A & B & C & D).
    rewrite Hs1 in A, B. rewrite Hsends in C. rewrite Hdumps in D. rewrite Hconn in B.
    change (steps s1) with (steps s) in Hrun.
    remember (suspend env s1) as s2 eqn:Es2. clear Es2.
    destruct (ws_send env (steps s) ws data) as [[]|[msg|msg]] eqn:Esend.
    + apply IH in Hrun. destruct Hrun as (k & Hk & Hse & Hdu & Hst & Hac & Hok & Hben).
      exists (S k). rewrite scheduled_between_S, fold_left_app. simpl.
      rewrite Hse, Hdu, Hst, Hac, A, B, C, D, <- !app_assoc. simpl.
      repeat split; auto; lia.
    + apply IH in Hrun. destruct Hrun as (k & Hk & Hse & Hdu & Hst & Hac & Hok & Hben).
      destruct (silent_log_error ("Failed to send to client: " ++ msg) s2)
        as (Hc & Hs & Hd).
      rewrite Hs in Hse. rewrite Hd in Hdu. rewrite Hc in Hac.
      change (steps (emit _ s2)) with (steps s2) in Hst, Hac.
      exists (S k). rewrite scheduled_between_S, fold_left_app. simpl.
      rewrite Hse, Hdu, Hst, Hac, A, B, C, D, <- !app_assoc. simpl.
      repeat split; auto; lia.
    + injection Hrun as <- <-.
      exists 1%nat. rewrite scheduled_between_S. simpl. rewrite app_nil_r.
      rewrite A, B, C, D. simpl.
      repeat split; try lia; try discriminate.
      intros Hben. specialize (Hben (steps s) ws data).
      rewrite Esend in Hben. discriminate.
Qed.
End FanOut.

(** ** One cycle *)

Section Cycle.
Variables prec emax : Z.
Variable self : FaceRecognitionServer.
Variable env : Env.

Lemma run_handlers_errors (evs : list conn_event) :
  forall s : state,
    errors (trace (fold_left (run_handler env) evs s)) = errors (trace s).
Proof.
  induction evs as [|ev evs IH]; intros s; simpl; [reflexivity|].
  rewrite IH. destruct ev as [ws|ws]; cbn [run_handler].
  - unfold register. rewrite errors_emit_app. simpl. apply app_nil_r.
  - unfold unregister. destruct (decide (ws ∈ active_connections s)); [|reflexivity].
    rewrite errors_emit_app. simpl. apply app_nil_r.
Qed.

Lemma suspend_errors (s : state) : errors (trace (suspend env s)) = errors (trace s).
Proof. unfold suspend; simpl. apply run_handlers_errors. Qed.

(** Each send that fails leaves its line in the log, in order. *)
Lemma send_all_errors (response : FramePayload) (subscribers : list handle) :
  forall s s' : state,
    send_all env response subscribers s = (Ok tt, s') ->
    errors (trace s')
    = errors (trace s)
      ++ send_errors env (json_dumps env response) (steps s) subscribers.
Proof.
  induction subscribers as [|ws rest IH]; intros s s' Hrun; simpl in Hrun.
  - unfold ret in Hrun. injection Hrun as <-. simpl. symmetry. apply app_nil_r.
  - set (data := json_dumps env response) in *.
    set (s1 := emit (WsSend ws data) (emit (JsonDumps response) s)) in *.
    assert (He : errors (trace s1) = errors (trace s)).
    { unfold s1. rewrite !errors_emit_app. simpl. rewrite !app_nil_r. reflexivity. }
    pose proof (suspend_errors s1) as Hse. rewrite He in Hse.
    destruct (suspend_spec env s1) as (Hst & _).
    change (steps s1) with (steps s) in Hst, Hrun.
    remember (suspend env s1) as s2 eqn:Es2. clear Es2.
    cbn [send_errors]. fold data.
    destruct (ws_send env (steps s) ws data) as [[]|[msg|msg]] eqn:Esend.
    + apply IH in Hrun. rewrite Hrun, Hse, Hst. reflexivity.
    + apply IH in Hrun. rewrite Hrun, errors_emit_app, Hse. simpl.
      change (steps (emit _ s2)) with (steps s2). rewrite Hst, <- app_assoc.
      reflexivity.
    + discriminate.
Qed.

Lemma addressed_app (s s' : state) (new : list (handle * string)) :
  sends (trace s') = sends (trace s) ++ new -> addressed s s' = map fst new.
Proof.
  intros H. unfold addressed. rewrite H, skipn_app, skipn_all, Nat.sub_diag.
  reflexivity.
Qed.

Lemma serialized_app (s s' : state) (new : list FramePayload) :
  dumps (trace s') = dumps (trace s) ++ new -> serialized s s' = new.
Proof.
  intros H. unfold serialized. rewrite H, skipn_app, skipn_all, Nat.sub_diag.
  reflexivity.
Qed.

(** Lines 100-106 as a whole: the list that is iterated is the copy
    made when the loop starts. *)
Lemma publish_spec (response : FramePayload) (s s' : state) (r : result unit) :
  publish env response s = (r, s') ->
  exists k : nat,
    (k <= length (snapshot s))%nat /\
    sends (trace s')
      = sends (trace s)
        ++ map (fun ws => (ws, json_dumps env response)) (firstn k (snapshot s)) /\
    dumps (trace s') = dumps (trace s) ++ repeat response k /\
    steps s' = (steps s + k)%nat /\
    active_connections s'
      = fold_left apply_event (scheduled_between env (steps s) k)
          (active_connections s) /\
    (r = Ok tt -> k = length (snapshot s)) /\
    ((forall i ws data, benign (ws_send env i ws data) = true) -> r = Ok tt).
Proof.
  unfold publish, bind, logger_info. intros Hrun.
  destruct (decide (active_connections s = ∅)) as [Hempty|Hsome].
  - apply send_all_spec in Hrun. exact Hrun.
  - set (msg := ("Broadcasting to " ++ str (size (active_connections s))
                   ++ " clients.")%string) in *.
    destruct (silent_log_info msg s) as (Hc & Hs & Hd).
    apply send_all_spec in Hrun.
    change (snapshot (emit (LogInfo msg) s)) with (snapshot s) in Hrun.
    change (steps (emit (LogInfo msg) s)) with (steps s) in Hrun.
    rewrite Hc, Hs, Hd in Hrun. exact Hrun.
Qed.

Lemma publish_errors (response : FramePayload) (s s' : state) :
  publish env response s = (Ok tt, s') ->
  errors (trace s')
  = errors (trace s)
    ++ send_errors env (json_dumps env response) (steps s) (snapshot s).
Proof.
  unfold publish, bind, logger_info. intros Hrun.
  destruct (decide (active_connections s = ∅)) as [Hempty|Hsome].
  - apply send_all_errors in Hrun. exact Hrun.
  - apply send_all_errors in Hrun. rewrite errors_emit_app in Hrun. simpl in Hrun.
    rewrite app_nil_r in Hrun. exact Hrun.
Qed.

Lemma process_frame_silent (frame : image) (s : state) :
  silent s (snd (process_frame prec emax self env frame s)).
Proof.
  unfold process_frame, bind, lift.
  destruct (cv2_cvtColor frame) as [rgb_img|]; [|apply silent_refl].
  destruct (model self frame) as [results|]; [|apply silent_refl].
  rewrite process_results_concat. apply process_boxes_silent.
Qed.

(** With the colour conversion and the detector succeeding and nothing
    but [Exception]s raised, a frame is always processed to the end. *)
Lemma process_frame_returns (frame rgb_img : image) (results : list (list Box))
    (s : state) :
  no_interrupt self env ->
  cv2_cvtColor frame = Ok rgb_img ->
  model self frame = Ok results ->
  exists (faces : list DetectedFace) (s' : state),
    process_frame prec emax self env frame s = (Ok faces, s').
Proof.
  intros Hni Ec Em. unfold process_frame, bind, lift.
  rewrite Ec, Em, process_results_concat.
  destruct (process_boxes_run prec emax self env rgb_img (concat results)) with
    (acc := @nil DetectedFace) (s := s) as (new & s' & Hrun & _).
  - apply List.Forall_forall. intros b _. apply no_interrupt_verdict, Hni.
  - exists new, s'. exact Hrun.
Qed.

(** Lines 91-98. *)
Lemma build_response_inv (frame : image) (s s' : state) (p : FramePayload) :
  build_response prec emax self env frame s = (Ok p, s') ->
  exists s1 : state,
    process_frame prec emax self env frame s = (Ok (faces p), s1) /\
    isDetecting (status p) = true /\
    lastUpdated (status p) = time_ms env (steps s1) /\
    s' = tick s1.
Proof.
  unfold build_response, bind, now_ms, ret. intros H.
  destruct (process_frame prec emax self env frame s) as [[detected|e] s1];
    [|discriminate].
  injection H as <- <-. exists s1. repeat split.
Qed.

(** What one iteration of the loop serialises. *)
Lemma cycle_serialized (s s' : state) (r : result unit) :
  cycle prec emax self env s = (r, s') ->
  serialized s s' = []
  \/ exists (frame : image) (p : FramePayload) (s1 : state) (k : nat),
       cap_read env (steps s) = Some frame /\
       build_response prec emax self env frame (tick s) = (Ok p, s1) /\
       serialized s s' = repeat p k.
Proof.
  unfold cycle, logger_warning. intros Hrun.
  destruct (cap_read env (steps s)) as [frame|] eqn:Eread.
  - unfold bind at 1 in Hrun.
    destruct (build_response prec emax self env frame (tick s)) as [[p|e] s1] eqn:Eb.
    + right. exists frame, p, s1.
      assert (Hd1 : dumps (trace s1) = dumps (trace s)).
      { unfold build_response, bind, now_ms, ret in Eb.
        pose proof (process_frame_silent frame (tick s)) as (_ & _ & Hd).
        destruct (process_frame prec emax self env frame (tick s)) as [[d|e] s0];
          [|discriminate].
        injection Eb as _ <-. exact Hd. }
      unfold bind in Hrun.
      destruct (publish env p s1) as [[[]|e] s2] eqn:Ep.
      * apply publish_spec in Ep. destruct Ep as (k & _ & _ & Hd & _).
        injection Hrun as _ <-. exists k. split; [reflexivity|]. split; [exact Eb|].
        apply serialized_app.
        destruct (suspend_spec env s2) as (_ & _ & _ & ->). rewrite Hd, Hd1. reflexivity.
      * apply publish_spec in Ep. destruct Ep as (k & _ & _ & Hd & _).
        injection Hrun as _ <-. exists k. split; [reflexivity|]. split; [exact Eb|].
        apply serialized_app. rewrite Hd, Hd1. reflexivity.
    + left. injection Hrun as _ <-. apply serialized_app. rewrite app_nil_r.
      unfold build_response, bind, now_ms, ret in Eb.
      pose proof (process_frame_silent frame (tick s)) as (_ & _ & Hd).
      destruct (process_frame prec emax self env frame (tick s)) as [[d|e'] s0];
        [discriminate|].
      injection Eb as _ <-. exact Hd.
  - left. injection Hrun as _ <-. apply serialized_app.
    rewrite dumps_emit. reflexivity.
Qed.

(** One iteration does not end in an exception when the frame, if one
    was read, passes the colour conversion and the detector. *)
Lemma cycle_returns (s : state) :
  no_interrupt self env ->
  (forall frame, cap_read env (steps s) = Some frame ->
     exists rgb_img results,
       cv2_cvtColor frame = Ok rgb_img /\ model self frame = Ok results) ->
  exists s' : state, cycle prec emax self env s = (Ok tt, s').
Proof.
  intros Hni Hframe. unfold cycle, logger_warning.
  destruct (cap_read env (steps s)) as [frame|] eqn:Eread.
  - destruct (Hframe frame eq_refl) as (rgb_img & results & Ec & Em).
    destruct (process_frame_returns frame rgb_img results (tick s) Hni Ec Em)
      as (detected & s1 & Hp).
    unfold bind at 1. unfold build_response, bind at 1. rewrite Hp.
    unfold now_ms, ret, bind.
    match goal with |- context [publish env ?p ?st] =>
      destruct (publish env p st) as [r s2] eqn:Ep end.
    apply publish_spec in Ep. destruct Ep as (k & _ & _ & _ & _ & _ & _ & Hok).
    destruct Hni as (_ & _ & _ & Hsend). rewrite (Hok Hsend).
    eexists. reflexivity.
  - eexists. reflexivity.
Qed.
End Cycle.

(** * The statements of the design document *)

Section FrameClaims.
Variables prec emax : Z.
Variable self : FaceRecognitionServer.
Variable env : Env.

(** C1. For every face in the list that [process_frame] returns: its
    confidence is the maximum of the cosine similarities of its
    embedding against the gallery; if that maximum is above 0.6, its
    name is the label the encoder gives back for the class index the
    SVM predicts for the embedding; otherwise its name is "Visitor". *)
Theorem C1_name_by_threshold_confidence_is_max_similarity
    (frame : image) (s s' : state) (faces : list DetectedFace) (f : DetectedFace) :
  process_frame prec emax self env frame s = (Ok faces, s') ->
  In f faces ->
  exists (face_img : image) (embedding : vec) (max_similarity : float),
    facenet self face_img = Ok embedding /\
    np_max (fst (calculate_similarity prec emax embedding (Y self)))
      = Ok max_similarity /\
    f_confidence f = max_similarity /\
    (if SFltb (threshold prec emax) max_similarity
     then exists face_idx : Z,
            svm_model self embedding = Ok face_idx /\
            inverse_transform (encoder self) face_idx = Ok (f_name f)
     else f_name f = "Visitor"%string).
Proof.
  intros Hrun Hin.
  apply process_frame_faces in Hrun.
  destruct Hrun as (rgb_img & results & _ & _ & _ & Hall).
  rewrite List.Forall_forall in Hall.
  destruct (Hall f Hin) as (b & _ & n & s0 & s1 & Htry).
  apply face_try_inv in Htry.
  destruct Htry as (x1 & y1 & x2 & y2 & face_img & embedding & c & Htry).
  exists face_img, embedding, c. tauto.
Qed.

(** C2. A probe embedding whose entries are all zero, against a
    non-empty gallery of the same dimension, is scored NaN on every
    row by [calculate_similarity] (nothing is raised, so the zeros of
    the [except] branch are not used), and the face is appended with
    the name "Visitor" and the confidence NaN. *)
Theorem C2_zero_norm_probe_scores_nan
    (rgb_img : image) (n : nat) (box : Box) (s : state)
    (x1 y1 x2 y2 : Z) (face_img : image) (embedding : vec) :
  py_int (bx1 box) = Ok x1 -> py_int (by1 box) = Ok y1 ->
  py_int (bx2 box) = Ok x2 -> py_int (by2 box) = Ok y2 ->
  image_size (crop rgb_img y1 y2 x1 x2) <> 0 ->
  cv2_resize env (crop rgb_img y1 y2 x1 x2) = Ok face_img ->
  facenet self face_img = Ok embedding ->
  forallb is_zero embedding = true ->
  Y self <> [] ->
  shapes_aligned embedding (Y self) = true ->
  calculate_similarity prec emax embedding (Y self)
    = (repeat S754_nan (length (Y self)), None) /\
  face_try prec emax self env rgb_img n box s
    = (Ok (Some {| f_id := str n;
                   f_name := "Visitor";
                   f_confidence := S754_nan;
                   f_box := [x1; y1; x2 - x1; y2 - y1];
                   f_timestamp := time_ms env (steps s) |}),
       tick s).
Proof.
  intros E1 E2 E3 E4 Esz Er Ef Hz Hne Hal.
  pose proof (calculate_similarity_zero prec emax embedding (Y self) Hz Hal) as Hsim.
  split; [exact Hsim|].
  assert (Hs : snd (similarity prec emax self embedding s) = s).
  { unfold similarity. rewrite Hsim. reflexivity. }
  rewrite (face_try_emits prec emax self env rgb_img n box s x1 y1 x2 y2
             face_img embedding S754_nan "Visitor" E1 E2 E3 E4 Esz Er Ef).
  - rewrite Hs. reflexivity.
  - rewrite Hsim. simpl. apply np_max_all_nan.
    destruct (Y self); [congruence|discriminate].
  - destruct (threshold prec emax); reflexivity.
Qed.

(** C9 (amended). For every face in the list that [process_frame]
    returns there is a detected box with corners (x1, y1, x2, y2), as
    truncated to integers, such that the face's box is
    [x1, y1, x2 - x1, y2 - y1]; its confidence is the maximum cosine
    similarity of its embedding, and when that maximum is above 0.6 the
    name is "alice" whenever the class index predicted by the SVM
    decodes to "alice". *)
Theorem C9_box_is_xywh_and_name_follows_classifier
    (frame : image) (s s' : state) (faces : list DetectedFace) (f : DetectedFace) :
  process_frame prec emax self env frame s = (Ok faces, s') ->
  In f faces ->
  exists (results : list (list Box)) (box : Box) (x1 y1 x2 y2 : Z)
         (embedding : vec) (max_similarity : float),
    model self frame = Ok results /\ In box (concat results) /\
    py_int (bx1 box) = Ok x1 /\ py_int (by1 box) = Ok y1 /\
    py_int (bx2 box) = Ok x2 /\ py_int (by2 box) = Ok y2 /\
    f_box f = [x1; y1; x2 - x1; y2 - y1] /\
    np_max (fst (calculate_similarity prec emax embedding (Y self)))
      = Ok max_similarity /\
    f_confidence f = max_similarity /\
    (SFltb (threshold prec emax) max_similarity = true ->
     forall face_idx : Z,
       svm_model self embedding = Ok face_idx ->
       inverse_transform (encoder self) face_idx = Ok "alice"%string ->
       f_name f = "alice"%string).
Proof.
  intros Hrun Hin.
  apply process_frame_faces in Hrun.
  destruct Hrun as (rgb_img & results & _ & Hm & _ & Hall).
  rewrite List.Forall_forall in Hall.
  destruct (Hall f Hin) as (b & Hb & n & s0 & s1 & Htry).
  apply face_try_inv in Htry.
  destruct Htry as (x1 & y1 & x2 & y2 & face_img & embedding & c & E1 & E2 & E3
                    & E4 & _ & _ & _ & Hmax & Hname & _ & Hconf & Hbox & _).
  exists results, b, x1, y1, x2, y2, embedding, c.
  repeat split; try assumption.
  intros Hgt idx Hsvm Hlabel. rewrite Hgt in Hname.
  destruct Hname as (idx' & Hsvm' & Hlabel').
  congruence.
Qed.

(** C10. In the list that [process_frame] returns, the id of the face
    at position [i] is the decimal string of [i]: the ids are "0", "1",
    ..., "m-1" without a gap, whatever boxes were skipped or dropped. *)
Theorem C10_ids_are_positions
    (frame : image) (s s' : state) (faces : list DetectedFace) :
  process_frame prec emax self env frame s = (Ok faces, s') ->
  (forall (i : nat) (f : DetectedFace), nth_error faces i = Some f -> f_id f = str i) /\
  map f_id faces = map str (seq 0 (length faces)).
Proof.
  intros Hrun.
  apply process_frame_faces in Hrun.
  destruct Hrun as (rgb_img & results & _ & _ & Hrun & _).
  assert (Hids : ids_positional faces).
  { eapply process_boxes_ids; [|exact Hrun]. intros [|i] g Hi; discriminate. }
  split; [exact Hids|].
  apply nth_error_ext. intros i.
  rewrite !nth_error_map, nth_error_seq.
  destruct (nth_error faces i) as [g|] eqn:Hi; simpl.
  - assert (Hlt : (i < length faces)%nat) by (apply nth_error_Some; congruence).
    apply Nat.ltb_lt in Hlt. rewrite Hlt. simpl. f_equal. apply Hids, Hi.
  - apply nth_error_None in Hi. apply Nat.ltb_ge in Hi. rewrite Hi. reflexivity.
Qed.
End FrameClaims.

Section LoopClaims.
Variables prec emax : Z.
Variable self : FaceRecognitionServer.
Variable env : Env.

(** C5. The loop of the fan-out iterates the list copied from the
    connection set when it starts: whatever handlers the scheduler runs
    during the sends, the subscribers addressed are the members at that
    moment (a member that leaves during the sends is still addressed),
    while the set itself follows the handlers. After three clients
    joined an empty set and the second left, the copy holds exactly the
    other two. *)
Theorem C5_fanout_iterates_a_copy (response : FramePayload) (s : state) :
  (forall i ws data, benign (ws_send env i ws data) = true) ->
  (exists s' : state,
     publish env response s = (Ok tt, s') /\
     addressed s s' = snapshot s /\
     active_connections s'
       = fold_left apply_event
           (scheduled_between env (steps s) (length (snapshot s)))
           (active_connections s)) /\
  (forall a b c : handle,
     a <> b -> b <> c ->
     active_connections s = ∅ ->
     forall ws : handle,
       In ws (snapshot (unregister env b
                          (register env c (register env b (register env a s)))))
       <-> ws = a \/ ws = c).
Proof.
  intros Hben. split.
  - destruct (publish env response s) as [r s'] eqn:Ep.
    pose proof (publish_spec env response s s' r Ep)
      as (k & _ & Hs & _ & _ & Hc & Hk & Hok).
    specialize (Hok Hben). subst r. specialize (Hk eq_refl). subst k.
    exists s'. split; [reflexivity|]. split; [|exact Hc].
    rewrite firstn_all in Hs.
    rewrite (addressed_app s s' _ Hs), map_map. simpl. apply map_id.
  - intros a b c Hab Hbc Hempty ws.
    unfold snapshot. rewrite <- list_elem_of_In, elem_of_elements.
    unfold unregister.
    destruct (decide (b ∈ active_connections
                            (register env c (register env b (register env a s)))))
      as [Hin|Hout]; simpl in *; rewrite Hempty in *.
    + set_solver.
    + exfalso. apply Hout. set_solver.
Qed.

(** C6. A send that fails with an [Exception] is caught and logged:
    the fan-out still returns normally after calling [ws.send] on every
    subscriber of the copied list, the log gains one line per failed
    send, and the connection set changes only by the handlers that the
    scheduler ran meanwhile -- with none scheduled it is the set the
    fan-out started with, failing subscribers included. *)
Theorem C6_send_failure_is_isolated (response : FramePayload) (s : state) :
  (forall i ws data, benign (ws_send env i ws data) = true) ->
  exists s' : state,
    publish env response s = (Ok tt, s') /\
    addressed s s' = snapshot s /\
    errors (trace s')
      = errors (trace s)
        ++ send_errors env (json_dumps env response) (steps s) (snapshot s) /\
    active_connections s'
      = fold_left apply_event
          (scheduled_between env (steps s) (length (snapshot s)))
          (active_connections s) /\
    ((forall k, scheduled env k = []) -> active_connections s' = active_connections s).
Proof.
  intros Hben.
  destruct (publish env response s) as [r s'] eqn:Ep.
  pose proof (publish_spec env response s s' r Ep)
    as (k & _ & Hs & _ & _ & Hc & Hk & Hok).
  specialize (Hok Hben). subst r. specialize (Hk eq_refl). subst k.
  exists s'. split; [reflexivity|]. split; [|split; [|split]].
  - rewrite firstn_all in Hs.
    rewrite (addressed_app s s' _ Hs), map_map. simpl. apply map_id.
  - apply publish_errors, Ep.
  - exact Hc.
  - intros Hnone. rewrite Hc.
    assert (Hno : forall from n, scheduled_between env from n = []).
    { intros from n. revert from. induction n as [|n IH]; intros from.
      - reflexivity.
      - rewrite scheduled_between_S, Hnone, IH. reflexivity. }
    rewrite Hno. reflexivity.
Qed.

(** C7 (amended). In one fan-out [json.dumps] is called once for each
    subscriber that is reached (all of them when the fan-out returns
    normally), each time on the same payload, and every subscriber
    reached is sent that same text, [json.dumps(response)]. *)
Theorem C7_same_text_serialized_per_subscriber
    (response : FramePayload) (s s' : state) (r : result unit) :
  publish env response s = (r, s') ->
  exists k : nat,
    (k <= length (snapshot s))%nat /\
    (r = Ok tt -> k = length (snapshot s)) /\
    serialized s s' = repeat response k /\
    skipn (length (sends (trace s))) (sends (trace s'))
      = map (fun ws => (ws, json_dumps env response)) (firstn k (snapshot s)).
Proof.
  intros Ep.
  pose proof (publish_spec env response s s' r Ep)
    as (k & Hle & Hs & Hd & _ & _ & Hk & _).
  exists k. split; [exact Hle|]. split; [exact Hk|]. split.
  - apply serialized_app, Hd.
  - rewrite Hs, skipn_app, skipn_all, Nat.sub_diag. reflexivity.
Qed.

(** C8. Every payload that a cycle serialises has [isDetecting] true,
    carries the faces that [process_frame] returned for the frame read
    in that cycle, and has as [lastUpdated] the clock read right after
    [process_frame] returned; and a frame in which the detector finds
    no box still yields a payload, with an empty list of faces. *)
Theorem C8_payload_status_and_empty_frame :
  (forall (s s' : state) (r : result unit) (p : FramePayload),
     cycle prec emax self env s = (r, s') ->
     In p (serialized s s') ->
     isDetecting (status p) = true /\
     exists (frame : image) (s1 : state),
       cap_read env (steps s) = Some frame /\
       process_frame prec emax self env frame (tick s) = (Ok (faces p), s1) /\
       lastUpdated (status p) = time_ms env (steps s1)) /\
  (forall (frame rgb_img : image) (results : list (list Box)) (s : state),
     cv2_cvtColor frame = Ok rgb_img ->
     model self frame = Ok results ->
     concat results = [] ->
     build_response prec emax self env frame s
     = (Ok {| status := {| isDetecting := true;
                           lastUpdated := time_ms env (steps s) |};
              faces := [] |},
        tick s)).
Proof.
  split.
  - intros s s' r p Hc Hin.
    apply cycle_serialized in Hc.
    destruct Hc as [Hnil | (frame & q & s1 & k & Hread & Hb & Hrep)].
    + rewrite Hnil in Hin. destruct Hin.
    + rewrite Hrep in Hin. apply repeat_spec in Hin. subst q.
      apply build_response_inv in Hb.
      destruct Hb as (s0 & Hp & Hdet & Hlast & _).
      split; [exact Hdet|]. exists frame, s0. auto.
  - intros frame rgb_img results s Ec Em Hnone.
    unfold build_response, process_frame, bind, lift, now_ms, ret.
    rewrite Ec, Em, process_results_concat, Hnone. reflexivity.
Qed.
End LoopClaims.


(** * The statements on the concrete deployment *)

Lemma demo_no_interrupt (idx : Z) (send_fails : handle -> bool)
    (sched : nat -> list conn_event) (results : result (list (list Box))) :
  no_interrupt (Demo.with_boxes results (Demo.predicting idx))
               (Demo.environment send_fails sched).
Proof.
  repeat split; simpl.
  - intros im. unfold Demo.embed. repeat case_match; reflexivity.
  - intros i ws data. destruct (send_fails ws); reflexivity.
Qed.

Lemma demo_sends_benign (send_fails : handle -> bool) (sched : nat -> list conn_event) :
  forall i ws data, benign (ws_send (Demo.environment send_fails sched) i ws data) = true.
Proof. intros i ws data. simpl. destruct (send_fails ws); reflexivity. Qed.

(** The two faces of the demo frame when the SVM predicts class 0. *)
Example demo_frame_alice :
  process_frame 24 128 (Demo.predicting 0) Demo.quiet Demo.frame initial_state
  = (Ok [Demo.face "0" "alice" Demo.score_095 [0; 0; 2; 2] 1000;
         Demo.face "1" "Visitor" Demo.score_025 [1; 1; 2; 3] 1001],
     tick (tick initial_state)).
Proof. vm_compute. reflexivity. Qed.

Lemma C1_witness :
  let f := Demo.face "0" "alice" Demo.score_095 [0; 0; 2; 2] 1000 in
  exists (face_img : image) (embedding : vec) (max_similarity : float),
    facenet (Demo.predicting 0) face_img = Ok embedding /\
    np_max (fst (calculate_similarity 24 128 embedding (Y (Demo.predicting 0))))
      = Ok max_similarity /\
    f_confidence f = max_similarity /\
    (if SFltb (threshold 24 128) max_similarity
     then exists face_idx : Z,
            svm_model (Demo.predicting 0) embedding = Ok face_idx /\
            inverse_transform (encoder (Demo.predicting 0)) face_idx = Ok (f_name f)
     else f_name f = "Visitor"%string).
Proof.
  intros f.
  apply (C1_name_by_threshold_confidence_is_max_similarity 24 128
           (Demo.predicting 0) Demo.quiet Demo.frame initial_state
           (tick (tick initial_state))
           [f; Demo.face "1" "Visitor" Demo.score_025 [1; 1; 2; 3] 1001] f).
  - vm_compute. reflexivity.
  - simpl. left. reflexivity.
Defined.

(** The failing input of C2: the box whose crop is embedded as the
    zero vector. The face is appended with confidence NaN. *)
Lemma C2_witness :
  calculate_similarity 24 128 (repeat pos_zero 5) (Y (Demo.predicting 0))
    = (repeat S754_nan 3, None) /\
  face_try 24 128 (Demo.predicting 0) Demo.quiet Demo.rgb_frame 0
    (Demo.mk_box 2 0 3 1) initial_state
    = (Ok (Some (Demo.face "0" "Visitor" S754_nan [2; 0; 1; 1] 1000)),
       tick initial_state).
Proof.
  apply (C2_zero_norm_probe_scores_nan 24 128 (Demo.predicting 0) Demo.quiet
           Demo.rgb_frame 0 (Demo.mk_box 2 0 3 1) initial_state 2 0 3 1
           [[(0, 0, 2)]] (repeat pos_zero 5));
    try (vm_compute; reflexivity).
  - vm_compute. discriminate.
  - simpl. discriminate.
Defined.

(** Three cycles on the frame with five boxes while the send to client
    1 fails: the loop is running, and each cycle logged the failed box
    and the failed send. *)
Example demo_three_cycles :
  let srv := Demo.with_boxes (Ok Demo.five_boxes) (Demo.predicting 0) in
  let r := video_stream_loop 24 128 srv Demo.flaky 3 (Demo.three_joined Demo.flaky) in
  fst r = Running /\
  errors (trace (snd r))
  = concat (repeat ["Face processing error: EmbeddingError";
                    "Traceback (most recent call last): ...";
                    "Failed to send to client: ConnectionClosed"]%string 3).
Proof. vm_compute. split; reflexivity. Qed.

(** C4 as the design document states it fails: a detector that raises
    an ordinary [Exception] (nothing of the fatal tier: the device is
    open and the models are loaded) ends the loop in its first cycle. *)
Lemma C4_counterexample :
  cap_isOpened Demo.quiet = true /\
  no_interrupt Demo.broken_detector Demo.quiet /\
  video_stream_loop 24 128 Demo.broken_detector Demo.quiet 5 initial_state
  = (Escaped (Exception "RuntimeError: CUDA out of memory"), tick initial_state).
Proof.
  split; [reflexivity|]. split; [apply demo_no_interrupt|].
  vm_compute. reflexivity.
Qed.

Lemma C5_witness :
  let s := Demo.three_joined Demo.flaky in
  (exists s' : state,
     publish Demo.flaky Demo.empty_payload s = (Ok tt, s') /\
     addressed s s' = snapshot s /\
     active_connections s'
       = fold_left apply_event
           (scheduled_between Demo.flaky (steps s) (length (snapshot s)))
           (active_connections s)) /\
  (forall a b c : handle,
     a <> b -> b <> c ->
     active_connections s = ∅ ->
     forall ws : handle,
       In ws (snapshot (unregister Demo.flaky b
                          (register Demo.flaky c
                             (register Demo.flaky b (register Demo.flaky a s)))))
       <-> ws = a \/ ws = c).
Proof.
  intros s.
  apply (C5_fanout_iterates_a_copy Demo.flaky Demo.empty_payload s).
  apply demo_sends_benign.
Defined.

(** Client 2 leaves during the first send: it is still addressed in
    this cycle, and the set afterwards holds clients 3 and 1. *)
Example demo_member_leaves_during_fanout :
  let s := Demo.three_joined Demo.flaky in
  let s' := snd (publish Demo.flaky Demo.empty_payload s) in
  snapshot s = [2; 3; 1]%nat /\ addressed s s' = [2; 3; 1]%nat /\
  snapshot s' = [3; 1]%nat.
Proof. vm_compute. repeat split. Qed.

(** Three registrations and one unregistration: the next fan-out
    addresses the two that remain. *)
Example demo_three_joined_one_left :
  let s := Demo.three_joined_one_left Demo.quiet in
  let s' := snd (publish Demo.quiet Demo.empty_payload s) in
  addressed s s' = [3; 1]%nat.
Proof. vm_compute. reflexivity. Qed.

Lemma C6_witness :
  let s := Demo.three_joined Demo.flaky in
  exists s' : state,
    publish Demo.flaky Demo.empty_payload s = (Ok tt, s') /\
    addressed s s' = snapshot s /\
    errors (trace s')
      = errors (trace s)
        ++ send_errors Demo.flaky (json_dumps Demo.flaky Demo.empty_payload)
             (steps s) (snapshot s) /\
    active_connections s'
      = fold_left apply_event
          (scheduled_between Demo.flaky (steps s) (length (snapshot s)))
          (active_connections s) /\
    ((forall k, scheduled Demo.flaky k = []) ->
     active_connections s' = active_connections s).
Proof.
  intros s.
  apply (C6_send_failure_is_isolated Demo.flaky Demo.empty_payload s).
  apply demo_sends_benign.
Defined.

(** The send to client 1 fails: clients 2 and 3 are addressed all the
    same, one line is logged, and with no handler scheduled client 1
    is still a member afterwards. *)
Example demo_failed_send :
  let env := Demo.environment (fun ws => Nat.eqb ws 1) (fun _ => []) in
  let s := Demo.three_joined env in
  let s' := snd (publish env Demo.empty_payload s) in
  fst (publish env Demo.empty_payload s) = Ok tt /\
  addressed s s' = [2; 3; 1]%nat /\
  errors (trace s') = ["Failed to send to client: ConnectionClosed"%string] /\
  snapshot s' = [2; 3; 1]%nat.
Proof. vm_compute. repeat split. Qed.

Lemma C7_witness :
  let s := Demo.three_joined_one_left Demo.quiet in
  let s' := snd (publish Demo.quiet Demo.empty_payload s) in
  exists k : nat,
    (k <= length (snapshot s))%nat /\
    (Ok tt = Ok tt -> k = length (snapshot s)) /\
    serialized s s' = repeat Demo.empty_payload k /\
    skipn (length (sends (trace s))) (sends (trace s'))
      = map (fun ws => (ws, json_dumps Demo.quiet Demo.empty_payload))
            (firstn k (snapshot s)).
Proof.
  intros s s'.
  apply (C7_same_text_serialized_per_subscriber Demo.quiet Demo.empty_payload s s' (Ok tt)).
  vm_compute. reflexivity.
Defined.

(** C7 as the design document states it fails: with two subscribers
    one fan-out calls [json.dumps] twice, not once. *)
Lemma C7_counterexample :
  let s := Demo.three_joined_one_left Demo.quiet in
  let s' := snd (publish Demo.quiet Demo.empty_payload s) in
  fst (publish Demo.quiet Demo.empty_payload s) = Ok tt /\
  serialized s s' = [Demo.empty_payload; Demo.empty_payload] /\
  length (serialized s s') <> 1%nat.
Proof. vm_compute. repeat split. discriminate. Qed.

Lemma C8_witness :
  let srv := Demo.with_boxes (Ok [[]; []]) (Demo.predicting 0) in
  build_response 24 128 srv Demo.quiet Demo.frame initial_state
  = (Ok {| status := {| isDetecting := true;
                        lastUpdated := time_ms Demo.quiet (steps initial_state) |};
           faces := [] |},
     tick initial_state).
Proof.
  intros srv.
  apply (proj2 (C8_payload_status_and_empty_frame 24 128 srv Demo.quiet)
           Demo.frame Demo.rgb_frame [[]; []] initial_state).
  - vm_compute. reflexivity.
  - reflexivity.
  - reflexivity.
Defined.

(** A cycle on a frame without faces, with two subscribers: both are
    sent the payload with the empty list, stamped with the clock read
    after the frame was processed (interaction 1, after the read). *)
Example demo_empty_frame_is_published :
  let srv := Demo.with_boxes (Ok []) (Demo.predicting 0) in
  let s := Demo.three_joined_one_left Demo.quiet in
  let s' := snd (cycle 24 128 srv Demo.quiet s) in
  serialized s s'
  = repeat {| status := {| isDetecting := true; lastUpdated := 1001 |};
              faces := [] |} 2 /\
  addressed s s' = [3; 1]%nat.
Proof. vm_compute. split; reflexivity. Qed.

Lemma C9_witness :
  let f := Demo.face "0" "alice" Demo.score_095 [0; 0; 2; 2] 1000 in
  exists (results : list (list Box)) (box : Box) (x1 y1 x2 y2 : Z)
         (embedding : vec) (max_similarity : float),
    model (Demo.predicting 0) Demo.frame = Ok results /\ In box (concat results) /\
    py_int (bx1 box) = Ok x1 /\ py_int (by1 box) = Ok y1 /\
    py_int (bx2 box) = Ok x2 /\ py_int (by2 box) = Ok y2 /\
    f_box f = [x1; y1; x2 - x1; y2 - y1] /\
    np_max (fst (calculate_similarity 24 128 embedding (Y (Demo.predicting 0))))
      = Ok max_similarity /\
    f_confidence f = max_similarity /\
    (SFltb (threshold 24 128) max_similarity = true ->
     forall face_idx : Z,
       svm_model (Demo.predicting 0) embedding = Ok face_idx ->
       inverse_transform (encoder (Demo.predicting 0)) face_idx = Ok "alice"%string ->
       f_name f = "alice"%string).
Proof.
  intros f.
  apply (C9_box_is_xywh_and_name_follows_classifier 24 128
           (Demo.predicting 0) Demo.quiet Demo.frame initial_state
           (tick (tick initial_state))
           [f; Demo.face "1" "Visitor" Demo.score_025 [1; 1; 2; 3] 1001] f).
  - vm_compute. reflexivity.
  - simpl. left. reflexivity.
Defined.

(** C9 as the design document states it fails in its end-to-end part:
    the second gallery row is labelled "alice", the embedding of the
    first box has cosine similarity 0.95 to it, which is the maximum
    over the gallery, and the face is emitted with that confidence and
    the translated box, but under the name "bob", the class that the
    SVM predicts. *)
Lemma C9_counterexample :
  let srv := Demo.predicting 1 in
  nth 1 (labels srv) EmptyString = "alice"%string /\
  facenet srv (crop Demo.rgb_frame 0 2 0 2) = Ok Demo.probe /\
  cosine_row 24 128 Demo.probe (nth 1 (Y srv) []) = Demo.score_095 /\
  np_max (fst (calculate_similarity 24 128 Demo.probe (Y srv))) = Ok Demo.score_095 /\
  process_frame 24 128 srv Demo.quiet Demo.frame initial_state
  = (Ok [Demo.face "0" "bob" Demo.score_095 [0; 0; 2; 2] 1000;
         Demo.face "1" "Visitor" Demo.score_025 [1; 1; 2; 3] 1001],
     tick (tick initial_state)) /\
  f_name (Demo.face "0" "bob" Demo.score_095 [0; 0; 2; 2] 1000) <> "alice"%string.
Proof. vm_compute. repeat split. discriminate. Qed.

Lemma C10_witness :
  let srv := Demo.with_boxes (Ok Demo.five_boxes) (Demo.predicting 0) in
  let faces := [Demo.face "0" "alice" Demo.score_095 [0; 0; 2; 2] 1000;
                Demo.face "1" "Visitor" Demo.score_025 [1; 1; 2; 3] 1001;
                Demo.face "2" "Visitor" S754_nan [2; 0; 1; 1] 1002] in
  (forall (i : nat) (f : DetectedFace), nth_error faces i = Some f -> f_id f = str i) /\
  map f_id faces = map str (seq 0 (length faces)).
Proof.
  intros srv faces.
  apply (C10_ids_are_positions 24 128 srv Demo.quiet Demo.frame initial_state
           (snd (process_frame 24 128 srv Demo.quiet Demo.frame initial_state)) faces).
  vm_compute. reflexivity.
Defined.

(** * Further properties of the code *)

(** ** The label encoder (lines 34-35 and 63) *)

Section Encoder.

Lemma in_insert_label (y s : string) (l : list string) :
  In y (insert_label s l) <-> y = s \/ In y l.
Proof.
  induction l as [|x l IH]; simpl.
  - intuition.
  - destruct (String.compare s x) eqn:E; simpl.
    + apply String.compare_eq_iff in E. subst x. intuition.
    + intuition.
    + rewrite IH. intuition.
Qed.

Lemma in_fit_classes (y : string) (labels : list string) :
  In y (fit_classes labels) <-> In y labels.
Proof.
  unfold fit_classes. induction labels as [|s labels IH]; simpl.
  - reflexivity.
  - rewrite in_insert_label, IH. intuition.
Qed.

Lemma label_lt_trans (a b c : string) : label_lt a b -> label_lt b c -> label_lt a c.
Proof.
  unfold label_lt. rewrite !OrderedTypeEx.String_as_OT.cmp_lt.
  apply OrderedTypeEx.String_as_OT.lt_trans.
Qed.

Lemma label_lt_irrefl (a : string) : ~ label_lt a a.
Proof.
  unfold label_lt. intros H.
  pose proof (String.compare_antisym a a) as Ha. rewrite H in Ha. discriminate.
Qed.

Lemma insert_label_sorted (s : string) (l : list string) :
  StronglySorted label_lt l -> StronglySorted label_lt (insert_label s l).
Proof.
  induction 1 as [|x l Hl IH Hx]; simpl.
  - repeat constructor.
  - destruct (String.compare s x) eqn:E.
    + constructor; assumption.
    + constructor; [constructor; assumption|].
      constructor; [exact E|].
      eapply List.Forall_impl; [|exact Hx].
      intros y Hy. eapply label_lt_trans; [exact E|exact Hy].
    + constructor; [exact IH|].
      apply List.Forall_forall. intros y Hy.
      apply in_insert_label in Hy. destruct Hy as [-> | Hy].
      * unfold label_lt. rewrite String.compare_antisym, E. reflexivity.
      * rewrite List.Forall_forall in Hx. apply Hx, Hy.
Qed.

Lemma fit_classes_sorted (labels : list string) :
  StronglySorted label_lt (fit_classes labels).
Proof.
  unfold fit_classes. induction labels as [|s labels IH]; simpl.
  - constructor.
  - apply insert_label_sorted, IH.
Qed.

Lemma sorted_NoDup (l : list string) : StronglySorted label_lt l -> List.NoDup l.
Proof.
  induction 1 as [|x l Hl IH Hx]; constructor; [|exact IH].
  intros Hin. rewrite List.Forall_forall in Hx.
  apply (label_lt_irrefl x), Hx, Hin.
Qed.

Lemma position_spec (s : string) (classes : list string) :
  In s classes ->
  (position s classes < length classes)%nat /\
  nth (position s classes) classes EmptyString = s.
Proof.
  induction classes as [|x classes IH]; simpl; [intros []|].
  intros Hin. destruct (String.eqb_spec s x) as [->|Hne].
  - split; [lia|reflexivity].
  - destruct Hin as [->|Hin]; [congruence|].
    destruct (IH Hin) as [Hlt Hnth]. split; [lia|exact Hnth].
Qed.

(** X. The classes of the fitted encoder are the labels of the
    gallery, each once, in strictly increasing order. *)
Theorem X_encoder_classes_sorted_unique (self : FaceRecognitionServer) :
  StronglySorted label_lt (encoder self) /\
  List.NoDup (encoder self) /\
  (forall s : string, In s (encoder self) <-> In s (labels self)).
Proof.
  unfold encoder. split; [apply fit_classes_sorted|]. split.
  - apply sorted_NoDup, fit_classes_sorted.
  - intros s. apply in_fit_classes.
Qed.

(** X. Decoding the encoded labels gives the labels back: the index
    that [fit_transform] assigned to the label at any position of
    [self.labels] is in range, and [inverse_transform] maps it to that
    label. *)
Theorem X_encoder_round_trip_decodes_labels (self : FaceRecognitionServer) (i : nat) (s : string) :
  nth_error (labels self) i = Some s ->
  exists idx : Z,
    nth_error (encoded_labels self) i = Some idx /\
    0 <= idx < Z.of_nat (length (encoder self)) /\
    inverse_transform (encoder self) idx = Ok s.
Proof.
  intros Hi. unfold encoded_labels, fit_transform, encoder.
  exists (Z.of_nat (position s (fit_classes (labels self)))).
  rewrite nth_error_map, Hi. split; [reflexivity|].
  assert (Hin : In s (fit_classes (labels self))).
  { apply in_fit_classes. eapply nth_error_In, Hi. }
  destruct (position_spec s _ Hin) as [Hlt Hnth].
  split; [lia|].
  unfold inverse_transform.
  destruct (0 <=? Z.of_nat (position s (fit_classes (labels self)))) eqn:E1;
    [|apply Z.leb_gt in E1; lia].
  destruct (Z.of_nat (position s (fit_classes (labels self)))
            <? Z.of_nat (length (fit_classes (labels self)))) eqn:E2;
    [|apply Z.ltb_ge in E2; lia].
  simpl. rewrite Nat2Z.id, Hnth. reflexivity.
Qed.

(** [inverse_transform] answers exactly for the indices of the
    classes: in range it returns a label of the gallery, out of range
    (negative included) it raises. *)
Lemma inverse_transform_range (self : FaceRecognitionServer) (idx : Z) :
  (0 <= idx < Z.of_nat (length (encoder self)) ->
   exists s : string,
     inverse_transform (encoder self) idx = Ok s /\ In s (labels self)) /\
  (~ 0 <= idx < Z.of_nat (length (encoder self)) ->
   exists e : exn, inverse_transform (encoder self) idx = Raise e).
Proof.
  unfold inverse_transform, encoder. split; intros H.
  - destruct (0 <=? idx) eqn:E1; [|apply Z.leb_gt in E1; lia].
    destruct (idx <? Z.of_nat (length (fit_classes (labels self)))) eqn:E2;
      [|apply Z.ltb_ge in E2; lia].
    simpl. eexists. split; [reflexivity|].
    apply in_fit_classes. apply nth_In. lia.
  - destruct (0 <=? idx) eqn:E1; simpl.
    + destruct (idx <? Z.of_nat (length (fit_classes (labels self)))) eqn:E2.
      * apply Z.leb_le in E1. apply Z.ltb_lt in E2. lia.
      * eexists. reflexivity.
    + eexists. reflexivity.
Qed.
End Encoder.

(** ** Scores (lines 38-43 and 59-65) *)

Section Scores.
Variables prec emax : Z.
Variable self : FaceRecognitionServer.
Variable env : Env.

Lemma binary_round_aux_sign (sx : bool) (mx ex : Z) (lx : location) :
  sx = false -> not_negative (binary_round_aux prec emax sx mx ex lx) = true.
Proof.
  intros ->. unfold binary_round_aux.
  destruct (shr_fexp prec emax mx ex lx) as [mrs' e'].
  destruct (shr_fexp prec emax _ e' loc_Exact) as [mrs'' e''].
  destruct (shr_m mrs''); [reflexivity| |reflexivity].
  destruct (e'' <=? emax - prec); reflexivity.
Qed.

Lemma threshold_not_negative : not_negative (threshold prec emax) = true.
Proof.
  unfold threshold, binary_normalize, binary_round.
  destruct (shl_align _ _ _) as [mz ez].
  apply binary_round_aux_sign. reflexivity.
Qed.

(** Neither zero nor NaN is above the threshold. *)
Lemma threshold_above_zero_and_nan (c : float) :
  zero_or_nan c = true -> SFltb (threshold prec emax) c = false.
Proof.
  pose proof threshold_not_negative as Ht.
  destruct (threshold prec emax) as [[]|[]| |[] m e], c as [[]|[]| |[] m' e'];
    simpl in *; intros H; try discriminate; reflexivity.
Qed.

Lemma calculate_similarity_length (embedding : vec) (gallery : list vec) :
  length (fst (calculate_similarity prec emax embedding gallery)) = length gallery.
Proof.
  unfold calculate_similarity.
  destruct (shapes_aligned embedding gallery); simpl.
  - apply length_map.
  - apply repeat_length.
Qed.

Lemma fold_maximum_zero (n : nat) :
  fold_left np_maximum (repeat pos_zero n) pos_zero = pos_zero.
Proof. induction n as [|n IH]; simpl; [reflexivity|exact IH]. Qed.

Lemma shapes_misaligned_nonempty (embedding : vec) (gallery : list vec) :
  shapes_aligned embedding gallery = false -> gallery <> [].
Proof. intros H ->. discriminate. Qed.

(** X. The fallback of the [except] branch: when the dimension of the
    embedding differs from that of a gallery row, [np.dot] raises, the
    error is logged, every score is zero, and the face is appended as
    "Visitor" with confidence 0; the classifier is not asked. *)
Theorem X_shape_mismatch_falls_back_to_zero
    (rgb_img : image) (n : nat) (box : Box) (s : state)
    (x1 y1 x2 y2 : Z) (face_img : image) (embedding : vec) :
  py_int (bx1 box) = Ok x1 -> py_int (by1 box) = Ok y1 ->
  py_int (bx2 box) = Ok x2 -> py_int (by2 box) = Ok y2 ->
  image_size (crop rgb_img y1 y2 x1 x2) <> 0 ->
  cv2_resize env (crop rgb_img y1 y2 x1 x2) = Ok face_img ->
  facenet self face_img = Ok embedding ->
  shapes_aligned embedding (Y self) = false ->
  fst (calculate_similarity prec emax embedding (Y self))
    = np_zeros (length (Y self)) /\
  face_try prec emax self env rgb_img n box s
    = (Ok (Some {| f_id := str n;
                   f_name := "Visitor";
                   f_confidence := pos_zero;
                   f_box := [x1; y1; x2 - x1; y2 - y1];
                   f_timestamp := time_ms env (steps s) |}),
       tick (emit (LogError "Error in similarity calc: ValueError: shapes not aligned") s)).
Proof.
  intros E1 E2 E3 E4 Esz Er Ef Hmis.
  assert (Hsim : calculate_similarity prec emax embedding (Y self)
                 = (np_zeros (length (Y self)),
                    Some (Exception "ValueError: shapes not aligned"))).
  { unfold calculate_similarity. rewrite Hmis. reflexivity. }
  split; [rewrite Hsim; reflexivity|].
  rewrite (face_try_emits prec emax self env rgb_img n box s x1 y1 x2 y2
             face_img embedding pos_zero "Visitor" E1 E2 E3 E4 Esz Er Ef).
  - unfold similarity. rewrite Hsim. reflexivity.
  - rewrite Hsim. simpl. unfold np_zeros.
    destruct (Y self) as [|row rest].
    + discriminate.
    + simpl. f_equal. apply fold_maximum_zero.
  - rewrite threshold_above_zero_and_nan; reflexivity.
Qed.

Lemma mul_zero_or_nan_r (x y : float) :
  zero_or_nan y = true -> zero_or_nan (SFmul prec emax x y) = true.
Proof. destruct x, y; simpl; intros H; try discriminate; reflexivity. Qed.

Lemma dot_from_zero_or_nan_r (a b : vec) :
  forallb is_zero b = true ->
  forall acc, zero_or_nan acc = true ->
  zero_or_nan (dot_from prec emax acc a b) = true.
Proof.
  revert b. induction a as [|x a IH]; intros [|y b] Hb acc Hacc; simpl; auto.
  simpl in Hb. apply andb_prop in Hb as [Hy Hb].
  apply IH; [exact Hb|].
  apply add_zero_or_nan; [exact Hacc|].
  apply mul_zero_or_nan_r, is_zero_zero_or_nan, Hy.
Qed.

(** Against an all-zero gallery row every embedding scores NaN. *)
Lemma cosine_row_zero_r (embedding row : vec) :
  forallb is_zero row = true ->
  cosine_row prec emax embedding row = S754_nan.
Proof.
  intros Hz. unfold cosine_row, norm.
  apply div_zero_or_nan.
  - apply dot_from_zero_or_nan_r; [exact Hz|reflexivity].
  - apply mul_zero_or_nan_r, sqrt_zero_or_nan, dot_zero_or_nan, Hz.
Qed.

Lemma np_maximum_nan_l (b : float) : np_maximum S754_nan b = S754_nan.
Proof. unfold np_maximum. rewrite orb_true_r. reflexivity. Qed.

Lemma np_maximum_nan_r (a : float) : np_maximum a S754_nan = S754_nan.
Proof. unfold np_maximum. destruct a; reflexivity. Qed.

Lemma fold_maximum_from_nan (xs : vec) : fold_left np_maximum xs S754_nan = S754_nan.
Proof.
  induction xs as [|x xs IH]; simpl; [reflexivity|].
  rewrite np_maximum_nan_l. exact IH.
Qed.

Lemma fold_maximum_nan_in (xs : vec) :
  forall acc, In S754_nan xs -> fold_left np_maximum xs acc = S754_nan.
Proof.
  induction xs as [|x xs IH]; intros acc Hin; simpl; [destruct Hin|].
  destruct Hin as [-> | Hin].
  - rewrite np_maximum_nan_r. apply fold_maximum_from_nan.
  - apply IH, Hin.
Qed.

(** NaN propagates through [np.max]. *)
Lemma np_max_nan (xs : vec) : In S754_nan xs -> np_max xs = Ok S754_nan.
Proof.
  destruct xs as [|x xs]; [intros []|]. intros [-> | Hin]; simpl; f_equal.
  - apply fold_maximum_from_nan.
  - apply fold_maximum_nan_in, Hin.
Qed.

(** X. One all-zero row in the gallery turns every face into a
    "Visitor": against that row every embedding scores NaN, NaN is the
    maximum, and NaN is not above the threshold (with an embedding of
    another dimension the scores are the zeros of the fallback, with
    the same effect). *)
Theorem X_zero_gallery_row_makes_everyone_a_visitor
    (frame : image) (s s' : state) (faces : list DetectedFace)
    (row : vec) (f : DetectedFace) :
  In row (Y self) ->
  forallb is_zero row = true ->
  process_frame prec emax self env frame s = (Ok faces, s') ->
  In f faces ->
  f_name f = "Visitor"%string /\
  (f_confidence f = S754_nan \/ f_confidence f = pos_zero).
Proof.
  intros Hrow Hz Hrun Hin.
  apply process_frame_faces in Hrun.
  destruct Hrun as (rgb_img & results & _ & _ & _ & Hall).
  rewrite List.Forall_forall in Hall.
  destruct (Hall f Hin) as (b & _ & n & s0 & s1 & Htry).
  apply face_try_inv in Htry.
  destruct Htry as (x1 & y1 & x2 & y2 & face_img & embedding & c & _ & _ & _
                    & _ & _ & _ & _ & Hmax & Hname & _ & Hconf & _).
  assert (Hc : c = S754_nan \/ c = pos_zero).
  { unfold calculate_similarity in Hmax.
    destruct (shapes_aligned embedding (Y self)) eqn:Hal; simpl in Hmax.
    - left. rewrite np_max_nan in Hmax; [congruence|].
      rewrite <- (cosine_row_zero_r embedding row Hz). apply in_map, Hrow.
    - right. unfold np_zeros in Hmax.
      destruct (Y self) as [|r rest]; [destruct Hrow|].
      simpl in Hmax. rewrite fold_maximum_zero in Hmax. congruence. }
  rewrite threshold_above_zero_and_nan in Hname
    by (destruct Hc as [-> | ->]; reflexivity).
  split; [exact Hname|]. rewrite Hconf. exact Hc.
Qed.

(** X. With an empty gallery no face is ever reported: [np.max] of no
    scores raises, the error is caught, and the box is dropped, so the
    list that [process_frame] returns is empty. *)
Theorem X_empty_gallery_reports_no_face
    (frame : image) (s s' : state) (faces : list DetectedFace) :
  Y self = [] ->
  process_frame prec emax self env frame s = (Ok faces, s') ->
  faces = [].
Proof.
  intros Hempty Hrun.
  apply process_frame_faces in Hrun.
  destruct Hrun as (rgb_img & results & _ & _ & _ & Hall).
  destruct faces as [|f faces]; [reflexivity|].
  apply List.Forall_inv in Hall.
  destruct Hall as (b & _ & n & s0 & s1 & Htry).
  apply face_try_inv in Htry.
  destruct Htry as (x1 & y1 & x2 & y2 & face_img & embedding & c & _ & _ & _
                    & _ & _ & _ & _ & Hmax & _).
  rewrite Hempty in Hmax. unfold calculate_similarity in Hmax.
  destruct (shapes_aligned embedding []); discriminate.
Qed.

(** X. The name of a reported face is "Visitor" or one of the labels
    of the gallery, and a face named otherwise than "Visitor" has a
    confidence that is strictly above the threshold, hence not NaN. *)
Theorem X_names_are_visitor_or_gallery_labels
    (frame : image) (s s' : state) (faces : list DetectedFace) (f : DetectedFace) :
  process_frame prec emax self env frame s = (Ok faces, s') ->
  In f faces ->
  (f_name f = "Visitor"%string \/ In (f_name f) (labels self)) /\
  (f_name f <> "Visitor"%string ->
   SFltb (threshold prec emax) (f_confidence f) = true /\
   is_nan (f_confidence f) = false).
Proof.
  intros Hrun Hin.
  apply process_frame_faces in Hrun.
  destruct Hrun as (rgb_img & results & _ & _ & _ & Hall).
  rewrite List.Forall_forall in Hall.
  destruct (Hall f Hin) as (b & _ & n & s0 & s1 & Htry).
  apply face_try_inv in Htry.
  destruct Htry as (x1 & y1 & x2 & y2 & face_img & embedding & c & _ & _ & _
                    & _ & _ & _ & _ & _ & Hname & _ & Hconf & _).
  rewrite Hconf.
  destruct (SFltb (threshold prec emax) c) eqn:Hgt.
  - destruct Hname as (idx & _ & Hlabel). split.
    + right. unfold inverse_transform, encoder in Hlabel.
      destruct ((0 <=? idx) && (idx <? Z.of_nat (length (fit_classes (labels self)))))
        eqn:Hr;
        [|discriminate].
      apply andb_prop in Hr as [H0 H1].
      apply Z.leb_le in H0. apply Z.ltb_lt in H1.
      injection Hlabel as <-. apply in_fit_classes. apply nth_In. lia.
    + intros _. split; [reflexivity|].
      destruct c; try reflexivity.
      destruct (threshold prec emax); discriminate.
  - split; [left; exact Hname|]. intros Hne. contradiction.
Qed.
End Scores.

(** ** The order of [np.max] (line 60) *)

Section Maximum.

Ltac compare_cases :=
  repeat match goal with
    | H : context [Z.compare ?a ?b] |- _ =>
        destruct (Z.compare_spec a b); try discriminate; try lia
    | |- context [Z.compare ?a ?b] =>
        destruct (Z.compare_spec a b); try discriminate; try lia
    | H : context [Pos.compare ?a ?b] |- _ =>
        destruct (Pos.compare_spec a b); simpl in *; try discriminate; try lia
    | |- context [Pos.compare ?a ?b] =>
        destruct (Pos.compare_spec a b); simpl in *; try discriminate; try lia
    end.

Lemma SFleb_refl (a : float) : is_nan a = false -> SFleb a a = true.
Proof.
  unfold SFleb. destruct a as [[]|[]| |[] m e]; simpl; intros H;
    try discriminate; try reflexivity;
    change (Pos.compare_cont Eq m m) with (Pos.compare m m);
    rewrite Z.compare_refl, Pos.compare_refl; reflexivity.
Qed.

Lemma SFleb_total (a b : float) :
  is_nan a = false -> is_nan b = false -> SFleb b a = false -> SFleb a b = true.
Proof.
  unfold SFleb.
  destruct a as [[]|[]| |[] m e], b as [[]|[]| |[] m' e']; simpl;
    intros Ha Hb H; try discriminate; try reflexivity;
    change (Pos.compare_cont Eq m m') with (Pos.compare m m') in *;
    change (Pos.compare_cont Eq m' m) with (Pos.compare m' m) in *;
    compare_cases; try reflexivity; subst; try lia.
Qed.

Lemma SFleb_trans (a b c : float) :
  SFleb a b = true -> SFleb b c = true -> SFleb a c = true.
Proof.
  unfold SFleb.
  destruct a as [[]|[]| |[] m e], b as [[]|[]| |[] m' e'], c as [[]|[]| |[] m'' e''];
    simpl; intros H1 H2; try discriminate; try reflexivity;
    change (Pos.compare_cont Eq m m') with (Pos.compare m m') in *;
    change (Pos.compare_cont Eq m' m'') with (Pos.compare m' m'') in *;
    change (Pos.compare_cont Eq m m'') with (Pos.compare m m'') in *;
    compare_cases; try reflexivity; subst; try lia.
Qed.

Lemma SFleb_not_nan (a b : float) : SFleb a b = true -> is_nan a = false /\ is_nan b = false.
Proof. destruct a, b; simpl; intros H; try discriminate; split; reflexivity. Qed.

(** Folding [np.maximum] over numbers gives one of them, not below any
    of them. *)
Lemma fold_maximum_greatest (xs : vec) :
  forall acc : float,
    is_nan acc = false ->
    forallb (fun x => negb (is_nan x)) xs = true ->
    let m := fold_left np_maximum xs acc in
    (m = acc \/ In m xs) /\ SFleb acc m = true /\
    (forall x, In x xs -> SFleb x m = true).
Proof.
  induction xs as [|x xs IH]; intros acc Hacc Hxs; simpl.
  - split; [left; reflexivity|]. split; [apply SFleb_refl, Hacc|intros x []].
  - simpl in Hxs. apply andb_prop in Hxs as [Hx Hxs].
    apply negb_true_iff in Hx.
    assert (Hstep : is_nan (np_maximum acc x) = false /\
                    SFleb acc (np_maximum acc x) = true /\
                    SFleb x (np_maximum acc x) = true /\
                    (np_maximum acc x = acc \/ np_maximum acc x = x)).
    { unfold np_maximum. rewrite Hacc, orb_false_r.
      destruct (SFleb x acc) eqn:E.
      - repeat split; auto. apply SFleb_refl, Hacc.
      - repeat split; auto.
        + apply SFleb_total; assumption.
        + apply SFleb_refl, Hx. }
    destruct Hstep as (Hn & Ha & Hb & Hwhich).
    destruct (IH (np_maximum acc x) Hn Hxs) as (Hin & Hle & Hall).
    split; [|split].
    + destruct Hin as [Hin | Hin]; [|right; right; exact Hin].
      destruct Hwhich as [Hw | Hw]; rewrite Hw in Hin; [left|right; left]; congruence.
    + eapply SFleb_trans; [exact Ha|exact Hle].
    + intros y [<- | Hy]; [|apply Hall, Hy].
      eapply SFleb_trans; [exact Hb|exact Hle].
Qed.

(** X. What [np.max] returns for the scores: it raises exactly on an
    empty array; otherwise the result is one of the scores; it is NaN
    as soon as one score is NaN; and when none is, no score is above
    it. *)
Theorem X_np_max_is_the_greatest_score (xs : vec) :
  (xs = [] <-> exists e : exn, np_max xs = Raise e) /\
  (forall m : float,
     np_max xs = Ok m ->
     In m xs /\
     (In S754_nan xs -> m = S754_nan) /\
     (forallb (fun x => negb (is_nan x)) xs = true ->
      forall x, In x xs -> SFleb x m = true)).
Proof.
  split.
  - split.
    + intros ->. eexists. reflexivity.
    + intros (e & He). destruct xs; [reflexivity|discriminate].
  - intros m Hm. split; [|split].
    + destruct (in_dec (fun a b : float =>
                          ltac:(decide equality; try apply Z.eq_dec;
                                try apply Pos.eq_dec; apply Bool.bool_dec))
                       S754_nan xs) as [Hnan | Hnone].
      * rewrite (np_max_nan xs Hnan) in Hm. injection Hm as <-. exact Hnan.
      * destruct xs as [|x xs]; [discriminate|]. simpl in Hm. injection Hm as <-.
        assert (Hall : forallb (fun y => negb (is_nan y)) (x :: xs) = true).
        { apply forallb_forall. intros y Hy. destruct y; try reflexivity.
          contradiction. }
        simpl in Hall. apply andb_prop in Hall as [Hx Hxs].
        apply negb_true_iff in Hx.
        destruct (fold_maximum_greatest xs x Hx Hxs) as ([Hin | Hin] & _).
        -- left. symmetry. exact Hin.
        -- right. exact Hin.
    + intros Hnan. rewrite (np_max_nan xs Hnan) in Hm. congruence.
    + intros Hall x Hx.
      destruct xs as [|x0 xs]; [destruct Hx|]. simpl in Hm. injection Hm as <-.
      simpl in Hall. apply andb_prop in Hall as [Hx0 Hxs].
      apply negb_true_iff in Hx0.
      destruct (fold_maximum_greatest xs x0 Hx0 Hxs) as (_ & Hle & Hrest).
      destruct Hx as [<- | Hx]; [exact Hle|apply Hrest, Hx].
Qed.
End Maximum.

(** ** Boxes, crops and faces (lines 50-77) *)

Section Boxes.
Variables prec emax : Z.
Variable self : FaceRecognitionServer.
Variable env : Env.

Lemma py_slice_nil {A : Type} (l : list A) (a b : Z) :
  0 <= b <= a -> py_slice l a b = [].
Proof.
  intros H. unfold py_slice, slice_bound.
  destruct (a <? 0) eqn:Ea; [apply Z.ltb_lt in Ea; lia|].
  destruct (b <? 0) eqn:Eb; [apply Z.ltb_lt in Eb; lia|].
  replace (Z.to_nat (Z.min b (Z.of_nat (length l)) - Z.min a (Z.of_nat (length l))))
    with 0%nat by lia.
  reflexivity.
Qed.

Lemma py_slice_nonempty {A : Type} (l : list A) (a b : Z) :
  py_slice l a b <> [] -> 0 <= a -> 0 <= b -> a < b /\ a < Z.of_nat (length l).
Proof.
  unfold py_slice, slice_bound. intros Hne Ha Hb.
  destruct (a <? 0) eqn:Ea; [apply Z.ltb_lt in Ea; lia|].
  destruct (b <? 0) eqn:Eb; [apply Z.ltb_lt in Eb; lia|].
  destruct (Z_lt_le_dec (Z.min a (Z.of_nat (length l))) (Z.min b (Z.of_nat (length l))))
    as [Hlt | Hge]; [lia|].
  exfalso. apply Hne.
  replace (Z.to_nat (Z.min b (Z.of_nat (length l)) - Z.min a (Z.of_nat (length l))))
    with 0%nat by lia.
  reflexivity.
Qed.

Lemma crop_size_zero_iff (im : image) (y1 y2 x1 x2 : Z) :
  image_size (crop im y1 y2 x1 x2) <> 0 <->
  exists row rest,
    py_slice im y1 y2 = row :: rest /\ py_slice row x1 x2 <> [].
Proof.
  unfold image_size, crop.
  destruct (py_slice im y1 y2) as [|row rest]; simpl.
  - split; [intros H; exfalso; apply H; reflexivity|intros (r & t & H & _); discriminate].
  - split.
    + intros H. exists row, rest. split; [reflexivity|].
      intros Hnil. rewrite Hnil in H. simpl in H. apply H. lia.
    + intros (r & t & Heq & Hne). injection Heq as <- <-.
      destruct (py_slice row x1 x2); [congruence|]. simpl. lia.
Qed.

(** X. A box whose right edge is not to the right of its left edge, or
    whose bottom is not below its top (corners counted from the
    origin), has an empty crop: it is passed over without a face,
    without a log line and without reading the clock. *)
Theorem X_degenerate_box_is_skipped_silently
    (rgb_img : image) (n : nat) (box : Box) (s : state) (x1 y1 x2 y2 : Z) :
  py_int (bx1 box) = Ok x1 -> py_int (by1 box) = Ok y1 ->
  py_int (bx2 box) = Ok x2 -> py_int (by2 box) = Ok y2 ->
  0 <= x2 <= x1 \/ 0 <= y2 <= y1 ->
  face_try prec emax self env rgb_img n box s = (Ok None, s).
Proof.
  intros E1 E2 E3 E4 Hdeg.
  unfold face_try, bind, lift, ret. rewrite E1, E2, E3, E4.
  destruct (image_size (crop rgb_img y1 y2 x1 x2) =? 0) eqn:Esz; [reflexivity|].
  exfalso. apply Z.eqb_neq in Esz. apply crop_size_zero_iff in Esz.
  destruct Esz as (row & rest & Hrows & Hcols).
  destruct Hdeg as [Hx | Hy].
  - apply Hcols, py_slice_nil, Hx.
  - rewrite py_slice_nil in Hrows by exact Hy. discriminate.
Qed.

(** X. A reported box with corners that are not negative has a
    positive width and a positive height. *)
Theorem X_reported_box_has_positive_extent
    (frame : image) (s s' : state) (faces : list DetectedFace) (f : DetectedFace) :
  process_frame prec emax self env frame s = (Ok faces, s') ->
  In f faces ->
  exists x y w h : Z,
    f_box f = [x; y; w; h] /\
    (0 <= x -> 0 <= x + w -> 0 < w) /\
    (0 <= y -> 0 <= y + h -> 0 < h).
Proof.
  intros Hrun Hin.
  apply process_frame_faces in Hrun.
  destruct Hrun as (rgb_img & results & _ & _ & _ & Hall).
  rewrite List.Forall_forall in Hall.
  destruct (Hall f Hin) as (b & _ & n & s0 & s1 & Htry).
  apply face_try_inv in Htry.
  destruct Htry as (x1 & y1 & x2 & y2 & face_img & embedding & c & _ & _ & _
                    & _ & Hsz & _ & _ & _ & _ & _ & _ & Hbox & _).
  apply crop_size_zero_iff in Hsz. destruct Hsz as (row & rest & Hrows & Hcols).
  exists x1, y1, (x2 - x1), (y2 - y1). split; [exact Hbox|]. split.
  - intros Hx Hx2. apply py_slice_nonempty in Hcols; lia.
  - intros Hy Hy2.
    assert (Hne : py_slice rgb_img y1 y2 <> []) by (rewrite Hrows; discriminate).
    apply py_slice_nonempty in Hne; lia.
Qed.

(** The faces appended by the loop come, in order, from a
    subsequence of the boxes. *)
Lemma process_boxes_sublist (rgb_img : image) (boxes : list Box) :
  forall (acc faces : list DetectedFace) (s s' : state),
    process_boxes prec emax self env rgb_img boxes acc s = (Ok faces, s') ->
    exists (new : list DetectedFace) (kept : list Box),
      faces = acc ++ new /\
      sublist kept boxes /\
      Forall2 (came_from prec emax self env rgb_img) new kept.
Proof.
  induction boxes as [|box rest IH]; intros acc faces s s' Hrun; simpl in Hrun.
  - unfold ret in Hrun. injection Hrun as <- _.
    exists [], []. rewrite app_nil_r. repeat split; constructor.
  - destruct (face_try prec emax self env rgb_img (length acc) box s)
      as [[[f|]|[msg|msg]] s1] eqn:E.
    + apply IH in Hrun. destruct Hrun as (new & kept & -> & Hsub & Hall).
      exists (f :: new), (box :: kept). rewrite <- app_assoc.
      split; [reflexivity|]. split; [apply sublist_skip, Hsub|].
      constructor; [|exact Hall]. exists (length acc), s, s1. exact E.
    + apply IH in Hrun. destruct Hrun as (new & kept & -> & Hsub & Hall).
      exists new, kept. split; [reflexivity|]. split; [apply sublist_cons, Hsub|exact Hall].
    + apply IH in Hrun. destruct Hrun as (new & kept & -> & Hsub & Hall).
      exists new, kept. split; [reflexivity|]. split; [apply sublist_cons, Hsub|exact Hall].
    + discriminate.
Qed.

(** X. Whatever boxes are dropped, the reported faces keep the order
    of the detector: they come one by one from a subsequence of the
    detected boxes, so there are never more faces than boxes. *)
Theorem X_faces_follow_detector_order
    (frame : image) (s s' : state) (faces : list DetectedFace) :
  process_frame prec emax self env frame s = (Ok faces, s') ->
  exists (rgb_img : image) (results : list (list Box)) (kept : list Box),
    cv2_cvtColor frame = Ok rgb_img /\
    model self frame = Ok results /\
    sublist kept (concat results) /\
    Forall2 (came_from prec emax self env rgb_img) faces kept /\
    (length faces <= length (concat results))%nat.
Proof.
  intros Hrun.
  apply process_frame_faces in Hrun.
  destruct Hrun as (rgb_img & results & Ec & Em & Hrun & _).
  apply process_boxes_sublist in Hrun.
  destruct Hrun as (new & kept & -> & Hsub & Hall).
  exists rgb_img, results, kept. simpl. repeat split; try assumption.
  rewrite (Forall2_length _ _ _ Hall). apply sublist_length, Hsub.
Qed.

Lemma face_try_steps (rgb_img : image) (n : nat) (box : Box) (s : state) :
  steps (snd (face_try prec emax self env rgb_img n box s))
  = match fst (face_try prec emax self env rgb_img n box s) with
    | Ok (Some _) => S (steps s)
    | _ => steps s
    end.
Proof.
  unfold face_try, bind, lift, ret, now_ms.
  destruct (py_int (bx1 box)) as [x1|]; [|reflexivity].
  destruct (py_int (by1 box)) as [y1|]; [|reflexivity].
  destruct (py_int (bx2 box)) as [x2|]; [|reflexivity].
  destruct (py_int (by2 box)) as [y2|]; [|reflexivity].
  destruct (image_size (crop rgb_img y1 y2 x1 x2) =? 0); [reflexivity|].
  destruct (cv2_resize env (crop rgb_img y1 y2 x1 x2)) as [face_img|]; [|reflexivity].
  destruct (facenet self face_img) as [embedding|]; [|reflexivity].
  rewrite similarity_ok.
  pose proof (similarity_steps prec emax self embedding s) as Hs.
  destruct (np_max (fst (calculate_similarity prec emax embedding (Y self))))
    as [c|]; [|exact Hs].
  destruct (SFltb (threshold prec emax) c).
  - destruct (svm_model self embedding) as [idx|]; [|exact Hs].
    destruct (inverse_transform (encoder self) idx) as [name|]; [|exact Hs].
    simpl. rewrite Hs. reflexivity.
  - simpl. rewrite Hs. reflexivity.
Qed.

(** The clock is read once for each face appended, and the face
    carries that reading. *)
Lemma process_boxes_clock (rgb_img : image) (boxes : list Box) :
  forall (acc faces : list DetectedFace) (s s' : state),
    process_boxes prec emax self env rgb_img boxes acc s = (Ok faces, s') ->
    exists new : list DetectedFace,
      faces = acc ++ new /\
      steps s' = (steps s + length new)%nat /\
      (forall (i : nat) (f : DetectedFace),
         nth_error new i = Some f -> f_timestamp f = time_ms env (steps s + i)).
Proof.
  induction boxes as [|box rest IH]; intros acc faces s s' Hrun; simpl in Hrun.
  - unfold ret in Hrun. injection Hrun as <- <-.
    exists []. rewrite app_nil_r, Nat.add_0_r. repeat split.
    intros [|i] f Hi; discriminate.
  - pose proof (face_try_steps rgb_img (length acc) box s) as Hst.
    destruct (face_try prec emax self env rgb_img (length acc) box s)
      as [[[f|]|[msg|msg]] s1] eqn:E; simpl in Hst.
    + apply IH in Hrun. destruct Hrun as (new & -> & Hs' & Hts).
      exists (f :: new). rewrite <- app_assoc. split; [reflexivity|].
      split; [simpl; lia|].
      intros [|i] g Hi; simpl in Hi.
      * injection Hi as <-. apply face_try_inv in E.
        destruct E as (x1 & y1 & x2 & y2 & fi & em & c & E).
        rewrite Nat.add_0_r. tauto.
      * rewrite (Hts i g Hi), Hst. f_equal. lia.
    + apply IH in Hrun. destruct Hrun as (new & -> & Hs' & Hts).
      exists new. rewrite Hst in Hs', Hts. auto.
    + apply IH in Hrun. destruct Hrun as (new & -> & Hs' & Hts).
      exists new. simpl in Hs', Hts. rewrite Hst in Hs', Hts. auto.
    + discriminate.
Qed.

(** X. The face at position [i] of a payload carries the [i]-th clock
    reading taken after the frame was handed over, and [lastUpdated]
    is the reading after the last of them: with a clock that does not
    run backwards no face is stamped later than the payload. *)
Theorem X_timestamps_are_successive_clock_reads
    (frame : image) (s s' : state) (p : FramePayload) :
  build_response prec emax self env frame s = (Ok p, s') ->
  (forall (i : nat) (f : DetectedFace),
     nth_error (faces p) i = Some f -> f_timestamp f = time_ms env (steps s + i)) /\
  lastUpdated (status p) = time_ms env (steps s + length (faces p)) /\
  steps s' = S (steps s + length (faces p)) /\
  ((forall a b : nat, (a <= b)%nat -> time_ms env a <= time_ms env b) ->
   forall f : DetectedFace, In f (faces p) -> f_timestamp f <= lastUpdated (status p)).
Proof.
  intros Hb. apply build_response_inv in Hb.
  destruct Hb as (s1 & Hp & _ & Hlast & ->).
  apply process_frame_faces in Hp. destruct Hp as (rgb_img & results & _ & _ & Hrun & _).
  apply process_boxes_clock in Hrun. destruct Hrun as (new & Hnew & Hs1 & Hts).
  simpl in Hnew. subst new.
  split; [exact Hts|]. split; [rewrite Hlast, Hs1; reflexivity|].
  split; [simpl; rewrite Hs1; reflexivity|].
  intros Hmono f Hin. apply In_nth_error in Hin. destruct Hin as (i & Hi).
  rewrite (Hts i f Hi), Hlast, Hs1. apply Hmono.
  assert (i < length (faces p))%nat by (apply nth_error_Some; congruence). lia.
Qed.

(** X. Processing a frame, however it ends, neither changes the set of
    connections nor serialises or sends anything. *)
Theorem X_process_frame_touches_no_connection
    (frame : image) (s s' : state) (r : result (list DetectedFace)) :
  process_frame prec emax self env frame s = (r, s') ->
  active_connections s' = active_connections s /\
  sends (trace s') = sends (trace s) /\
  dumps (trace s') = dumps (trace s).
Proof.
  intros Hrun.
  pose proof (process_frame_silent prec emax self env frame s) as H.
  rewrite Hrun in H. exact H.
Qed.

Lemma str_inj (n m : nat) : str n = str m -> n = m.
Proof.
  unfold str. intros H.
  assert (Hnn : forall k, Nat.to_uint k <> Decimal.Nil).
  { intros k. rewrite <- (DecimalNat.Unsigned.of_to k) at 1.
    rewrite DecimalNat.Unsigned.to_of. apply DecimalFacts.unorm_nonnil. }
  apply (f_equal NilZero.uint_of_string) in H.
  rewrite !NilZero.usu in H by apply Hnn.
  injection H as H. apply DecimalNat.Unsigned.to_uint_inj, H.
Qed.

(** X. Within one payload no two faces have the same id. *)
Theorem X_ids_are_pairwise_distinct
    (frame : image) (s s' : state) (faces : list DetectedFace) :
  process_frame prec emax self env frame s = (Ok faces, s') ->
  List.NoDup (map f_id faces).
Proof.
  intros Hrun.
  apply process_frame_faces in Hrun.
  destruct Hrun as (rgb_img & results & _ & _ & Hrun & _).
  assert (Hids : ids_positional faces).
  { eapply process_boxes_ids; [|exact Hrun]. intros [|i] g Hi; discriminate. }
  apply (proj2 (List.NoDup_nth_error (map f_id faces))).
  intros i j Hi Heq.
  rewrite length_map in Hi. rewrite !nth_error_map in Heq.
  destruct (nth_error faces i) as [f|] eqn:Ei;
    [|apply nth_error_None in Ei; lia].
  destruct (nth_error faces j) as [g|] eqn:Ej; [|discriminate].
  simpl in Heq. injection Heq as Heq.
  rewrite (Hids i f Ei), (Hids j g Ej) in Heq. apply str_inj, Heq.
Qed.
End Boxes.

(** ** The loop on failed reads and the connection handlers
       (lines 86-89 and 110-118) *)

Section Connections.
Variables prec emax : Z.
Variable self : FaceRecognitionServer.
Variable env : Env.

(** X. While [cap.read()] fails the loop spins: each iteration logs
    one warning and goes straight to the next read, without sending
    and without ever suspending, so no connection handler runs and the
    set of connections stays as it is, whatever is scheduled. *)
Theorem X_failed_reads_spin_without_suspending (n : nat) :
  forall s : state,
    (forall i : nat, (steps s <= i < steps s + n)%nat -> cap_read env i = None) ->
    iterate prec emax self env n s
    = (Ok tt,
       {| steps := steps s + n;
          active_connections := active_connections s;
          trace := trace s ++ repeat (LogWarning "Frame read failed.") n |}).
Proof.
  induction n as [|n IH]; intros s Hread; simpl.
  - unfold ret. rewrite Nat.add_0_r, app_nil_r. destruct s; reflexivity.
  - unfold bind, cycle. rewrite (Hread (steps s)) by lia.
    unfold logger_warning. rewrite IH.
    + simpl. rewrite <- app_assoc, Nat.add_succ_r. reflexivity.
    + intros i Hi. simpl in Hi. apply Hread. lia.
Qed.

Lemma apply_events_snoc (evs : list conn_event) (ev : conn_event) (reg : gset handle) :
  fold_left apply_event (evs ++ [ev]) reg
  = apply_event (fold_left apply_event evs reg) ev.
Proof. rewrite fold_left_app. reflexivity. Qed.

Lemma last_event_snoc (ws : handle) (evs : list conn_event) (ev : conn_event) :
  last_event ws (evs ++ [ev])
  = if Nat.eqb (event_handle ev) ws then Some ev else last_event ws evs.
Proof. unfold last_event. rewrite rev_app_distr. reflexivity. Qed.

(** X. The set of connections holds exactly the websockets that are
    open: after any run of handlers, a websocket is a member if and
    only if the last handler event about it was its connection, or
    there was none and it was a member before. *)
Theorem X_connection_set_holds_the_open_websockets
    (evs : list conn_event) (s : state) (ws : handle) :
  ws ∈ active_connections (fold_left (run_handler env) evs s) <->
  match last_event ws evs with
  | Some (Connected _) => True
  | Some (Closed _) => False
  | None => ws ∈ active_connections s
  end.
Proof.
  destruct (run_handlers_spec env evs s) as (_ & -> & _).
  generalize (active_connections s) as reg. intros reg.
  induction evs as [|ev evs IH] using rev_ind.
  - reflexivity.
  - rewrite apply_events_snoc, last_event_snoc.
    destruct (Nat.eqb_spec (event_handle ev) ws) as [Heq | Hne].
    + destruct ev as [w|w]; simpl in *; subst w; set_solver.
    + rewrite <- IH. destruct ev as [w|w]; simpl in *; set_solver.
Qed.

Lemma apply_events_keep (ws : handle) (others : list conn_event) :
  Forall (fun ev => event_handle ev <> ws) others ->
  forall reg : gset handle,
    fold_left apply_event others ({[ ws ]} ∪ reg)
    = {[ ws ]} ∪ fold_left apply_event others reg.
Proof.
  induction 1 as [|ev others Hev Hothers IH]; intros reg; simpl; [reflexivity|].
  rewrite <- IH. f_equal.
  destruct ev as [w|w]; simpl in *; set_solver.
Qed.

(** X. [handle_connection] always takes its websocket out of the set
    again: however [wait_closed] ends (normally, with an error, or by
    cancellation) the [finally] block removes it and the outcome of
    [wait_closed] is the outcome of the handler; the other members are
    as the other handlers left them. *)
Theorem X_handle_connection_always_unregisters
    (ws : handle) (others : list conn_event) (closed : result unit) (s : state) :
  Forall (fun ev => event_handle ev <> ws) others ->
  fst (handle_connection env ws others closed s) = closed /\
  (ws ∉ active_connections (snd (handle_connection env ws others closed s))) /\
  active_connections (snd (handle_connection env ws others closed s))
  = (fold_left apply_event others (active_connections s)) ∖ {[ ws ]}.
Proof.
  intros Hothers. unfold handle_connection, handle_connection_exit. simpl.
  set (s1 := fold_left (run_handler env) others (register env ws s)).
  assert (Hreg : active_connections s1
                 = {[ ws ]} ∪ fold_left apply_event others (active_connections s)).
  { unfold s1. destruct (run_handlers_spec env others (register env ws s)) as (_ & -> & _).
    apply (apply_events_keep ws others Hothers). }
  assert (Hin : ws ∈ active_connections s1) by (rewrite Hreg; set_solver).
  unfold unregister.
  destruct (decide (ws ∈ active_connections s1)) as [_|Hout]; [|contradiction].
  simpl. rewrite Hreg. repeat split; set_solver.
Qed.
End Connections.

(** ** More on boxes and on what a frame depends on *)

Section MoreBoxes.
Variables prec emax : Z.
Variable self : FaceRecognitionServer.
Variable env : Env.

(** X. A box with a corner that is NaN or infinite makes [int] raise
    inside the [try]: the box ends in a caught error, before anything
    is cropped or embedded, and the state is as it was. *)
Theorem X_non_finite_corner_raises_in_the_try
    (rgb_img : image) (n : nat) (box : Box) (s : state) :
  finite_float (bx1 box) && finite_float (by1 box)
    && finite_float (bx2 box) && finite_float (by2 box) = false ->
  exists msg : string,
    face_try prec emax self env rgb_img n box s = (Raise (Exception msg), s).
Proof.
  unfold face_try, bind, lift. intros H.
  destruct (bx1 box) as [?|?| |? ? ?]; try (eexists; reflexivity);
    (destruct (by1 box) as [?|?| |? ? ?]; try (eexists; reflexivity);
     (destruct (bx2 box) as [?|?| |? ? ?]; try (eexists; reflexivity);
      (destruct (by2 box) as [?|?| |? ? ?]; try (eexists; reflexivity);
       discriminate))).
Qed.

Lemma py_slice_length {A : Type} (l : list A) (a b : Z) :
  0 <= a <= b -> b <= Z.of_nat (length l) ->
  length (py_slice l a b) = Z.to_nat (b - a).
Proof.
  intros Hab Hb. unfold py_slice, slice_bound.
  destruct (a <? 0) eqn:Ea; [apply Z.ltb_lt in Ea; lia|].
  destruct (b <? 0) eqn:Eb; [apply Z.ltb_lt in Eb; lia|].
  rewrite length_firstn, length_skipn. lia.
Qed.

(** X. For a box that lies inside the frame the crop has exactly the
    reported extent: [y2 - y1] rows of [x2 - x1] pixels each. *)
Theorem X_crop_has_the_extent_of_a_box_inside_the_frame
    (im : image) (width : nat) (y1 y2 x1 x2 : Z) :
  Forall (fun row => length row = width) im ->
  0 <= y1 <= y2 -> y2 <= Z.of_nat (length im) ->
  0 <= x1 <= x2 -> x2 <= Z.of_nat width ->
  length (crop im y1 y2 x1 x2) = Z.to_nat (y2 - y1) /\
  Forall (fun row => length row = Z.to_nat (x2 - x1)) (crop im y1 y2 x1 x2) /\
  image_size (crop im y1 y2 x1 x2) = (y2 - y1) * (x2 - x1) * 3.
Proof.
  intros Hrect Hy Hy2 Hx Hx2.
  assert (Hrows : Forall (fun row => length row = Z.to_nat (x2 - x1))
                         (crop im y1 y2 x1 x2)).
  { unfold crop. apply List.Forall_map.
    assert (Hsub : Forall (fun row => length row = width) (py_slice im y1 y2)).
    { unfold py_slice. apply Forall_take, Forall_drop, Hrect. }
    eapply List.Forall_impl; [|exact Hsub].
    intros row Hrow. simpl. apply py_slice_length; [exact Hx|]. rewrite Hrow. exact Hx2. }
  assert (Hlen : length (crop im y1 y2 x1 x2) = Z.to_nat (y2 - y1)).
  { unfold crop. rewrite length_map. apply py_slice_length; assumption. }
  split; [exact Hlen|]. split; [exact Hrows|].
  unfold image_size. rewrite Hlen.
  destruct (crop im y1 y2 x1 x2) as [|row rest]; simpl in *.
  - replace (y2 - y1) with 0 by lia. reflexivity.
  - apply List.Forall_inv in Hrows. rewrite Hrows, !Z2Nat.id by lia. reflexivity.
Qed.

(** The outcome of one box and the number of clock reads depend on
    the state only through the number of interactions. *)
Lemma face_try_same_steps (rgb_img : image) (n : nat) (box : Box) (s1 s2 : state) :
  steps s1 = steps s2 ->
  fst (face_try prec emax self env rgb_img n box s1)
  = fst (face_try prec emax self env rgb_img n box s2) /\
  steps (snd (face_try prec emax self env rgb_img n box s1))
  = steps (snd (face_try prec emax self env rgb_img n box s2)).
Proof.
  intros Hst. unfold face_try, bind, lift, ret, now_ms.
  destruct (py_int (bx1 box)) as [x1|]; [|auto].
  destruct (py_int (by1 box)) as [y1|]; [|auto].
  destruct (py_int (bx2 box)) as [x2|]; [|auto].
  destruct (py_int (by2 box)) as [y2|]; [|auto].
  destruct (image_size (crop rgb_img y1 y2 x1 x2) =? 0); [auto|].
  destruct (cv2_resize env (crop rgb_img y1 y2 x1 x2)) as [face_img|]; [|auto].
  destruct (facenet self face_img) as [embedding|]; [|auto].
  rewrite (similarity_ok prec emax self embedding s1),
          (similarity_ok prec emax self embedding s2).
  pose proof (similarity_steps prec emax self embedding s1) as H1.
  pose proof (similarity_steps prec emax self embedding s2) as H2.
  destruct (np_max (fst (calculate_similarity prec emax embedding (Y self))))
    as [c|]; [|simpl; split; congruence].
  destruct (SFltb (threshold prec emax) c).
  - destruct (svm_model self embedding) as [idx|]; [|simpl; split; congruence].
    destruct (inverse_transform (encoder self) idx) as [name|];
      [|simpl; split; congruence].
    simpl. rewrite H1, H2, Hst. split; reflexivity.
  - simpl. rewrite H1, H2, Hst. split; reflexivity.
Qed.

Lemma process_boxes_same_steps (rgb_img : image) (boxes : list Box) :
  forall (acc : list DetectedFace) (s1 s2 : state),
    steps s1 = steps s2 ->
    fst (process_boxes prec emax self env rgb_img boxes acc s1)
    = fst (process_boxes prec emax self env rgb_img boxes acc s2) /\
    steps (snd (process_boxes prec emax self env rgb_img boxes acc s1))
    = steps (snd (process_boxes prec emax self env rgb_img boxes acc s2)).
Proof.
  induction boxes as [|box rest IH]; intros acc s1 s2 Hst; simpl.
  - split; [reflexivity|exact Hst].
  - destruct (face_try_same_steps rgb_img (length acc) box s1 s2 Hst) as [Hf Hs].
    destruct (face_try prec emax self env rgb_img (length acc) box s1)
      as [r1 t1], (face_try prec emax self env rgb_img (length acc) box s2)
      as [r2 t2]. simpl in Hf, Hs. subst r2.
    destruct r1 as [[f|]|[msg|msg]]; try (apply IH; assumption).
    split; [reflexivity|exact Hs].
Qed.

(** X. What a frame yields does not depend on who is connected or on
    what was logged or sent before: in two states with the same number
    of interactions so far (so that the clock reads agree),
    [process_frame] returns the same list of faces or the same error. *)
Theorem X_faces_do_not_depend_on_the_connections
    (frame : image) (s1 s2 : state) :
  steps s1 = steps s2 ->
  fst (process_frame prec emax self env frame s1)
  = fst (process_frame prec emax self env frame s2).
Proof.
  intros Hst. unfold process_frame, bind, lift.
  destruct (cv2_cvtColor frame) as [rgb_img|]; [|reflexivity].
  destruct (model self frame) as [results|]; [|reflexivity].
  rewrite !process_results_concat.
  apply process_boxes_same_steps, Hst.
Qed.
End MoreBoxes.

(** * Failures inside a frame and inside a cycle *)

Section InnerFailures.
Variables prec emax : Z.
Variable self : FaceRecognitionServer.
Variable env : Env.

Lemma errors_app (tr1 tr2 : list event) : errors (tr1 ++ tr2) = errors tr1 ++ errors tr2.
Proof. unfold errors. apply flat_map_app. Qed.

(** What one box writes to the error log, and the exception its [try]
    ends with, are the same with any number of faces collected and in
    any state. *)
Lemma face_try_log_stable (rgb_img : image) (n : nat) (box : Box) (s : state) :
  errors (trace (snd (face_try prec emax self env rgb_img n box s)))
  = errors (trace s)
    ++ errors (trace (snd (face_try prec emax self env rgb_img 0 box initial_state)))
  /\
  raised (fst (face_try prec emax self env rgb_img n box s))
  = raised (fst (face_try prec emax self env rgb_img 0 box initial_state)).
Proof.
  unfold face_try, bind, lift, ret, now_ms.
  destruct (py_int (bx1 box)) as [x1|]; [|simpl; rewrite app_nil_r; auto].
  destruct (py_int (by1 box)) as [y1|]; [|simpl; rewrite app_nil_r; auto].
  destruct (py_int (bx2 box)) as [x2|]; [|simpl; rewrite app_nil_r; auto].
  destruct (py_int (by2 box)) as [y2|]; [|simpl; rewrite app_nil_r; auto].
  destruct (image_size (crop rgb_img y1 y2 x1 x2) =? 0);
    [simpl; rewrite app_nil_r; auto|].
  destruct (cv2_resize env (crop rgb_img y1 y2 x1 x2)) as [face_img|];
    [|simpl; rewrite app_nil_r; auto].
  destruct (facenet self face_img) as [embedding|];
    [|simpl; rewrite app_nil_r; auto].
  unfold similarity.
  destruct (calculate_similarity prec emax embedding (Y self)) as [sims [e|]];
    (destruct (np_max sims) as [c|];
     [destruct (SFltb (threshold prec emax) c);
      [destruct (svm_model self embedding) as [idx|];
       [destruct (inverse_transform (encoder self) idx) as [name|]|]|]|]);
    simpl; rewrite ?errors_app, ?app_nil_r; auto.
Qed.

(** The log of one box is at most the line of a failed similarity
    computation, followed, exactly when the [try] of the box ended in
    an [Exception], by the two lines of the handler with the message
    of that exception. *)
Lemma box_log_spec (rgb_img : image) (n : nat) (box : Box) (s : state) :
  exists similarity_line : list string,
    (similarity_line = []
     \/ exists msg, similarity_line = [("Error in similarity calc: " ++ msg)%string]) /\
    box_log prec emax self env rgb_img box
    = similarity_line
      ++ match fst (face_try prec emax self env rgb_img n box s) with
         | Raise (Exception msg) =>
             [("Face processing error: " ++ msg)%string;
              "Traceback (most recent call last): ..."%string]
         | _ => []
         end.
Proof.
  destruct (face_try_log_stable rgb_img n box s) as [_ Hr].
  exists (errors (trace (snd (face_try prec emax self env rgb_img 0 box initial_state)))).
  split.
  - unfold face_try, bind, lift, ret, now_ms.
    destruct (py_int (bx1 box)) as [x1|]; [|left; reflexivity].
    destruct (py_int (by1 box)) as [y1|]; [|left; reflexivity].
    destruct (py_int (bx2 box)) as [x2|]; [|left; reflexivity].
    destruct (py_int (by2 box)) as [y2|]; [|left; reflexivity].
    destruct (image_size (crop rgb_img y1 y2 x1 x2) =? 0); [left; reflexivity|].
    destruct (cv2_resize env (crop rgb_img y1 y2 x1 x2)) as [face_img|];
      [|left; reflexivity].
    destruct (facenet self face_img) as [embedding|]; [|left; reflexivity].
    unfold similarity.
    destruct (calculate_similarity prec emax embedding (Y self)) as [sims [e|]];
      (destruct (np_max sims) as [c|];
       [destruct (SFltb (threshold prec emax) c);
        [destruct (svm_model self embedding) as [idx|];
         [destruct (inverse_transform (encoder self) idx) as [name|]|]|]|]);
      simpl; try (left; reflexivity); right; exists (exn_str e); reflexivity.
  - unfold box_log. cbv zeta. f_equal.
    destruct (fst (face_try prec emax self env rgb_img n box s)) as [o|e],
             (fst (face_try prec emax self env rgb_img 0 box initial_state)) as [o'|e'];
      simpl in Hr; try discriminate; [reflexivity|].
    injection Hr as ->. reflexivity.
Qed.

(** The error log of the loop over the boxes: box after box, the log
    of each. *)
Lemma process_boxes_errors (rgb_img : image) (boxes : list Box) :
  forall (acc faces : list DetectedFace) (s s' : state),
    process_boxes prec emax self env rgb_img boxes acc s = (Ok faces, s') ->
    errors (trace s')
    = errors (trace s) ++ flat_map (box_log prec emax self env rgb_img) boxes.
Proof.
  induction boxes as [|box rest IH]; intros acc faces s s' Hrun; simpl in Hrun.
  - unfold ret in Hrun. injection Hrun as _ <-. simpl. symmetry. apply app_nil_r.
  - destruct (face_try_log_stable rgb_img (length acc) box s) as [Hlog _].
    destruct (box_log_spec rgb_img (length acc) box s) as (line & _ & Hspec).
    assert (Hline : line
                    = errors (trace (snd (face_try prec emax self env rgb_img 0 box
                                            initial_state)))).
    { destruct (face_try_log_stable rgb_img (length acc) box s) as [_ Hr].
      unfold box_log in Hspec. cbv zeta in Hspec.
      destruct (fst (face_try prec emax self env rgb_img (length acc) box s)) as [o|e],
               (fst (face_try prec emax self env rgb_img 0 box initial_state))
                 as [o'|e']; simpl in Hr; try discriminate.
      - rewrite !app_nil_r in Hspec. congruence.
      - injection Hr as ->. apply app_inv_tail in Hspec. congruence. }
    subst line. simpl. rewrite Hspec.
    destruct (face_try prec emax self env rgb_img (length acc) box s)
      as [[[f|]|[msg|msg]] s1]; simpl in *.
    + apply IH in Hrun. rewrite Hrun, Hlog, app_nil_r, <- app_assoc. reflexivity.
    + apply IH in Hrun. rewrite Hrun, Hlog, app_nil_r, <- app_assoc. reflexivity.
    + apply IH in Hrun. rewrite Hrun. simpl. rewrite !errors_app, Hlog. simpl.
      rewrite <- !app_assoc. reflexivity.
    + discriminate.
Qed.

(** C3 (amended). A box whose processing raises an [Exception] that
    reaches the handler of the box (or whose crop is empty) is left
    out: when the colour conversion and the detector succeed and, of
    the N detected boxes, one ends so while every other one ends in a
    face, [process_frame] returns normally with exactly N - 1 faces,
    which come from the other boxes in the order of iteration. A
    failure of the similarity computation does not reach that handler:
    [calculate_similarity] catches it, and the box ends in a face. *)
Theorem C3_one_failed_face_is_skipped :
  (forall (frame rgb_img : image) (results : list (list Box)) (s : state)
          (before after : list Box) (bad : Box),
     cv2_cvtColor frame = Ok rgb_img ->
     model self frame = Ok results ->
     concat results = before ++ bad :: after ->
     Forall (fun b => face_verdict prec emax self env rgb_img b = Emitted)
            (before ++ after) ->
     face_verdict prec emax self env rgb_img bad = Failed \/
     face_verdict prec emax self env rgb_img bad = Skipped ->
     exists (faces : list DetectedFace) (s' : state),
       process_frame prec emax self env frame s = (Ok faces, s') /\
       length faces = (length (concat results) - 1)%nat /\
       Forall2 (came_from prec emax self env rgb_img) faces (before ++ after)) /\
  (forall (rgb_img : image) (box : Box) (x1 y1 x2 y2 : Z)
          (face_img : image) (embedding : vec),
     py_int (bx1 box) = Ok x1 -> py_int (by1 box) = Ok y1 ->
     py_int (bx2 box) = Ok x2 -> py_int (by2 box) = Ok y2 ->
     image_size (crop rgb_img y1 y2 x1 x2) <> 0 ->
     cv2_resize env (crop rgb_img y1 y2 x1 x2) = Ok face_img ->
     facenet self face_img = Ok embedding ->
     shapes_aligned embedding (Y self) = false ->
     snd (calculate_similarity prec emax embedding (Y self))
       = Some (Exception "ValueError: shapes not aligned") /\
     face_verdict prec emax self env rgb_img box = Emitted).
Proof.
  split.
  - intros frame rgb_img results s before after bad Ec Em Hsplit Hgood Hbad.
    apply List.Forall_app in Hgood. destruct Hgood as [Hbefore Hafter].
    assert (Hfilter : List.filter (emits prec emax self env rgb_img) (concat results)
                      = before ++ after).
    { rewrite Hsplit, List.filter_app. simpl.
      assert (Hkeep : forall l,
                 Forall (fun b => face_verdict prec emax self env rgb_img b = Emitted) l ->
                 List.filter (emits prec emax self env rgb_img) l = l).
      { induction 1 as [|b l Hb Hl IH]; simpl; [reflexivity|].
        unfold emits at 1. rewrite Hb. simpl. f_equal. exact IH. }
      rewrite (Hkeep _ Hbefore), (Hkeep _ Hafter).
      unfold emits at 1. destruct Hbad as [-> | ->]; reflexivity. }
    assert (Hnone : Forall (fun b => face_verdict prec emax self env rgb_img b
                                     <> Interrupted) (concat results)).
    { rewrite Hsplit. apply List.Forall_app. split; [|constructor].
      - eapply List.Forall_impl; [|exact Hbefore]. intros b ->. discriminate.
      - destruct Hbad as [-> | ->]; discriminate.
      - eapply List.Forall_impl; [|exact Hafter]. intros b ->. discriminate. }
    destruct (process_boxes_run prec emax self env rgb_img (concat results) Hnone [] s)
      as (new & s' & Hrun & Hnew).
    rewrite Hfilter in Hnew.
    exists new, s'. split; [|split].
    + unfold process_frame, bind, lift. rewrite Ec, Em, process_results_concat.
      exact Hrun.
    + rewrite (Forall2_length _ _ _ Hnew), Hsplit, !length_app. simpl. lia.
    + exact Hnew.
  - intros rgb_img box x1 y1 x2 y2 face_img embedding E1 E2 E3 E4 Esz Er Ef Hmis.
    assert (Hsim : calculate_similarity prec emax embedding (Y self)
                   = (np_zeros (length (Y self)),
                      Some (Exception "ValueError: shapes not aligned"))).
    { unfold calculate_similarity. rewrite Hmis. reflexivity. }
    split; [rewrite Hsim; reflexivity|].
    unfold face_verdict.
    rewrite (face_try_emits prec emax self env rgb_img 0 box initial_state x1 y1 x2 y2
               face_img embedding pos_zero "Visitor" E1 E2 E3 E4 Esz Er Ef).
    + reflexivity.
    + rewrite Hsim. simpl. unfold np_zeros.
      destruct (Y self) as [|row rest]; [discriminate|].
      simpl. f_equal. apply fold_maximum_zero.
    + rewrite threshold_above_zero_and_nan; reflexivity.
Qed.

(** C4 (amended). The failures of one box and of one send are caught
    and logged inside the cycle and never end the loop.
    - If the capture device opened, nothing but [Exception]s is raised,
      and every frame that is read passes the colour conversion and the
      detector call, then after any number of iterations the loop is
      still running.
    - A cycle on such a frame returns normally, and what it adds to the
      error log is, for each detected box in order, the log of that box
      (for a box whose [try] ended in an [Exception], its own
      "Face processing error" line with the message of that exception
      and the traceback line), and then, for each subscriber of the
      copied list in order, the line of its send if that failed.
    - An exception of the detector call, which no [try] encloses, is
      not caught: it leaves the cycle and the loop. *)
Theorem C4_caught_failures_do_not_stop_the_loop :
  (forall (fuel : nat) (s : state),
     cap_isOpened env = true ->
     no_interrupt self env ->
     (forall (k : nat) (frame : image),
        cap_read env k = Some frame ->
        exists rgb_img results,
          cv2_cvtColor frame = Ok rgb_img /\ model self frame = Ok results) ->
     exists s' : state, video_stream_loop prec emax self env fuel s = (Running, s')) /\
  (forall (s : state) (frame rgb_img : image) (results : list (list Box)),
     no_interrupt self env ->
     cap_read env (steps s) = Some frame ->
     cv2_cvtColor frame = Ok rgb_img ->
     model self frame = Ok results ->
     exists (p : FramePayload) (s1 s' : state),
       build_response prec emax self env frame (tick s) = (Ok p, s1) /\
       cycle prec emax self env s = (Ok tt, s') /\
       errors (trace s')
       = errors (trace s)
         ++ flat_map (box_log prec emax self env rgb_img) (concat results)
         ++ send_errors env (json_dumps env p) (steps s1) (snapshot s)) /\
  (forall (rgb_img : image) (n : nat) (box : Box) (s : state),
     exists similarity_line : list string,
       (similarity_line = []
        \/ exists msg,
             similarity_line = [("Error in similarity calc: " ++ msg)%string]) /\
       box_log prec emax self env rgb_img box
       = similarity_line
         ++ match fst (face_try prec emax self env rgb_img n box s) with
            | Raise (Exception msg) =>
                [("Face processing error: " ++ msg)%string;
                 "Traceback (most recent call last): ..."%string]
            | _ => []
            end) /\
  (forall (fuel : nat) (s : state) (frame rgb_img : image) (e : exn),
     cap_isOpened env = true ->
     cap_read env (steps s) = Some frame ->
     cv2_cvtColor frame = Ok rgb_img ->
     model self frame = Raise e ->
     cycle prec emax self env s = (Raise e, tick s) /\
     video_stream_loop prec emax self env (S fuel) s = (Escaped e, tick s)).
Proof.
  split; [|split; [|split]].
  - intros fuel s Hopen Hni Hframes. unfold video_stream_loop. rewrite Hopen.
    assert (Hiter : forall n st, exists st', iterate prec emax self env n st = (Ok tt, st')).
    { induction n as [|n IH]; intros st; simpl.
      - exists st. reflexivity.
      - destruct (cycle_returns prec emax self env st Hni) as (st1 & Hc).
        { intros frame Hread. eapply Hframes, Hread. }
        unfold bind. rewrite Hc. apply IH. }
    destruct (Hiter fuel s) as (s' & ->). exists s'. reflexivity.
  - intros s frame rgb_img results Hni Hread Ec Em.
    destruct (process_frame_returns prec emax self env frame rgb_img results (tick s)
                Hni Ec Em) as (detected & s0 & Hp).
    assert (Herr0 : errors (trace s0)
                    = errors (trace s)
                      ++ flat_map (box_log prec emax self env rgb_img) (concat results)).
    { pose proof Hp as Hp'. unfold process_frame, bind, lift in Hp'.
      rewrite Ec, Em, process_results_concat in Hp'.
      apply process_boxes_errors in Hp'. exact Hp'. }
    assert (Hconn0 : active_connections s0 = active_connections s).
    { pose proof (process_frame_silent prec emax self env frame (tick s)) as (Hc & _).
      rewrite Hp in Hc. exact Hc. }
    set (p := {| status := {| isDetecting := true; lastUpdated := time_ms env (steps s0) |};
                 faces := detected |}).
    assert (Hb : build_response prec emax self env frame (tick s) = (Ok p, tick s0)).
    { unfold build_response, bind, now_ms, ret. rewrite Hp. reflexivity. }
    destruct (publish env p (tick s0)) as [r s2] eqn:Ep.
    pose proof (publish_spec env p (tick s0) s2 r Ep) as (k & _ & _ & _ & _ & _ & _ & Hok).
    destruct Hni as (_ & _ & _ & Hsend). specialize (Hok Hsend). subst r.
    exists p, (tick s0), (suspend env s2). split; [exact Hb|]. split.
    + unfold cycle. rewrite Hread. unfold bind. rewrite Hb, Ep. reflexivity.
    + rewrite suspend_errors, (publish_errors env p (tick s0) s2 Ep).
      change (errors (trace (tick s0))) with (errors (trace s0)).
      rewrite Herr0, <- app_assoc.
      unfold snapshot. change (active_connections (tick s0)) with (active_connections s0).
      rewrite Hconn0. reflexivity.
  - intros rgb_img n box s. apply box_log_spec.
  - intros fuel s frame rgb_img e Hopen Hread Ec Em.
    assert (Hc : cycle prec emax self env s = (Raise e, tick s)).
    { unfold cycle, build_response, process_frame, bind, lift.
      rewrite Hread, Ec, Em. reflexivity. }
    split; [exact Hc|].
    unfold video_stream_loop. rewrite Hopen. simpl. unfold bind. rewrite Hc. reflexivity.
Qed.
End InnerFailures.

(** * The further properties on the concrete deployments *)

Lemma X_encoder_round_trip_witness :
  exists idx : Z,
    nth_error (encoded_labels (Demo.predicting 0)) 2 = Some idx /\
    0 <= idx < Z.of_nat (length (encoder (Demo.predicting 0))) /\
    inverse_transform (encoder (Demo.predicting 0)) idx = Ok "bob"%string.
Proof.
  apply (X_encoder_round_trip_decodes_labels (Demo.predicting 0) 2 "bob").
  reflexivity.
Defined.

(** The labels bob, alice, bob are encoded as 1, 0, 1. *)
Example demo_encoded_labels :
  encoder (Demo.predicting 0) = ["alice"; "bob"]%string /\
  encoded_labels (Demo.predicting 0) = [1; 0; 1].
Proof. vm_compute. split; reflexivity. Qed.

Lemma X_shape_mismatch_witness :
  fst (calculate_similarity 24 128 [Demo.f32 1 0; Demo.f32 0 0; Demo.f32 0 0]
         (Y Cases.short_embedder))
    = np_zeros (length (Y Cases.short_embedder)) /\
  face_try 24 128 Cases.short_embedder Demo.quiet Demo.rgb_frame 0
    (Demo.mk_box 0 0 2 2) initial_state
    = (Ok (Some {| f_id := str 0;
                   f_name := "Visitor";
                   f_confidence := pos_zero;
                   f_box := [0; 0; 2 - 0; 2 - 0];
                   f_timestamp := time_ms Demo.quiet (steps initial_state) |}),
       tick (emit (LogError "Error in similarity calc: ValueError: shapes not aligned")
               initial_state)).
Proof.
  apply (X_shape_mismatch_falls_back_to_zero 24 128 Cases.short_embedder Demo.quiet
           Demo.rgb_frame 0 (Demo.mk_box 0 0 2 2) initial_state 0 0 2 2
           (crop Demo.rgb_frame 0 2 0 2)
           [Demo.f32 1 0; Demo.f32 0 0; Demo.f32 0 0]);
    try (vm_compute; reflexivity).
  vm_compute. discriminate.
Defined.

Lemma X_zero_gallery_row_witness :
  let f := Demo.face "0" "Visitor" S754_nan [0; 0; 2; 2] 1000 in
  f_name f = "Visitor"%string /\
  (f_confidence f = S754_nan \/ f_confidence f = pos_zero).
Proof.
  intros f.
  apply (X_zero_gallery_row_makes_everyone_a_visitor 24 128 Cases.zero_row_gallery
           Demo.quiet Demo.frame initial_state (tick (tick initial_state))
           [f; Demo.face "1" "Visitor" S754_nan [1; 1; 2; 3] 1001]
           Cases.zero_row f).
  - simpl. right. left. reflexivity.
  - reflexivity.
  - vm_compute. reflexivity.
  - simpl. left. reflexivity.
Defined.

Lemma X_empty_gallery_witness :
  fst (process_frame 24 128 Cases.empty_gallery Demo.quiet Demo.frame initial_state)
  = Ok [] /\ @nil DetectedFace = [].
Proof.
  split; [vm_compute; reflexivity|].
  apply (X_empty_gallery_reports_no_face 24 128 Cases.empty_gallery Demo.quiet
           Demo.frame initial_state
           (snd (process_frame 24 128 Cases.empty_gallery Demo.quiet Demo.frame
                   initial_state)) []).
  - reflexivity.
  - vm_compute. reflexivity.
Defined.

Lemma X_names_witness :
  let f := Demo.face "0" "alice" Demo.score_095 [0; 0; 2; 2] 1000 in
  (f_name f = "Visitor"%string \/ In (f_name f) (labels (Demo.predicting 0))) /\
  (f_name f <> "Visitor"%string ->
   SFltb (threshold 24 128) (f_confidence f) = true /\
   is_nan (f_confidence f) = false).
Proof.
  intros f.
  apply (X_names_are_visitor_or_gallery_labels 24 128 (Demo.predicting 0) Demo.quiet
           Demo.frame initial_state (tick (tick initial_state))
           [f; Demo.face "1" "Visitor" Demo.score_025 [1; 1; 2; 3] 1001] f).
  - vm_compute. reflexivity.
  - simpl. left. reflexivity.
Defined.

Lemma X_np_max_witness :
  In Demo.score_095 [pos_zero; Demo.score_095; Demo.score_025] /\
  (In S754_nan [pos_zero; Demo.score_095; Demo.score_025] ->
   Demo.score_095 = S754_nan) /\
  (forallb (fun x => negb (is_nan x)) [pos_zero; Demo.score_095; Demo.score_025] = true ->
   forall x, In x [pos_zero; Demo.score_095; Demo.score_025] ->
             SFleb x Demo.score_095 = true).
Proof.
  apply (proj2 (X_np_max_is_the_greatest_score
                  [pos_zero; Demo.score_095; Demo.score_025]) Demo.score_095).
  vm_compute. reflexivity.
Defined.

Lemma X_degenerate_box_witness :
  face_try 24 128 (Demo.predicting 0) Demo.quiet Demo.rgb_frame 0
    (Demo.mk_box 5 5 1 1) initial_state
  = (Ok None, initial_state).
Proof.
  apply (X_degenerate_box_is_skipped_silently 24 128 (Demo.predicting 0) Demo.quiet
           Demo.rgb_frame 0 (Demo.mk_box 5 5 1 1) initial_state 5 5 1 1);
    try (vm_compute; reflexivity).
  left. lia.
Defined.

Lemma X_positive_extent_witness :
  exists x y w h : Z,
    f_box (Demo.face "1" "Visitor" Demo.score_025 [1; 1; 2; 3] 1001) = [x; y; w; h] /\
    (0 <= x -> 0 <= x + w -> 0 < w) /\
    (0 <= y -> 0 <= y + h -> 0 < h).
Proof.
  apply (X_reported_box_has_positive_extent 24 128 (Demo.predicting 0) Demo.quiet
           Demo.frame initial_state (tick (tick initial_state))
           [Demo.face "0" "alice" Demo.score_095 [0; 0; 2; 2] 1000;
            Demo.face "1" "Visitor" Demo.score_025 [1; 1; 2; 3] 1001]).
  - vm_compute. reflexivity.
  - simpl. right. left. reflexivity.
Defined.

Lemma X_detector_order_witness :
  let srv := Demo.with_boxes (Ok Demo.five_boxes) (Demo.predicting 0) in
  let faces := [Demo.face "0" "alice" Demo.score_095 [0; 0; 2; 2] 1000;
                Demo.face "1" "Visitor" Demo.score_025 [1; 1; 2; 3] 1001;
                Demo.face "2" "Visitor" S754_nan [2; 0; 1; 1] 1002] in
  exists (rgb_img : image) (results : list (list Box)) (kept : list Box),
    cv2_cvtColor Demo.frame = Ok rgb_img /\
    model srv Demo.frame = Ok results /\
    sublist kept (concat results) /\
    Forall2 (came_from 24 128 srv Demo.quiet rgb_img) faces kept /\
    (length faces <= length (concat results))%nat.
Proof.
  intros srv faces.
  apply (X_faces_follow_detector_order 24 128 srv Demo.quiet Demo.frame initial_state
           (snd (process_frame 24 128 srv Demo.quiet Demo.frame initial_state)) faces).
  vm_compute. reflexivity.
Defined.

Lemma X_timestamps_witness :
  let srv := Demo.with_boxes (Ok Demo.five_boxes) (Demo.predicting 0) in
  let p := {| status := {| isDetecting := true; lastUpdated := 1003 |};
              faces := [Demo.face "0" "alice" Demo.score_095 [0; 0; 2; 2] 1000;
                        Demo.face "1" "Visitor" Demo.score_025 [1; 1; 2; 3] 1001;
                        Demo.face "2" "Visitor" S754_nan [2; 0; 1; 1] 1002] |} in
  let s' := snd (build_response 24 128 srv Demo.quiet Demo.frame initial_state) in
  (forall (i : nat) (f : DetectedFace),
     nth_error (faces p) i = Some f ->
     f_timestamp f = time_ms Demo.quiet (steps initial_state + i)) /\
  lastUpdated (status p)
    = time_ms Demo.quiet (steps initial_state + length (faces p)) /\
  steps s' = S (steps initial_state + length (faces p)) /\
  ((forall a b : nat, (a <= b)%nat -> time_ms Demo.quiet a <= time_ms Demo.quiet b) ->
   forall f : DetectedFace, In f (faces p) -> f_timestamp f <= lastUpdated (status p)).
Proof.
  intros srv p s'.
  apply (X_timestamps_are_successive_clock_reads 24 128 srv Demo.quiet Demo.frame
           initial_state s' p).
  vm_compute. reflexivity.
Defined.

Lemma X_process_frame_witness :
  let srv := Demo.with_boxes (Ok Demo.five_boxes) (Demo.predicting 0) in
  let s := Demo.three_joined Demo.flaky in
  let out := process_frame 24 128 srv Demo.flaky Demo.frame s in
  active_connections (snd out) = active_connections s /\
  sends (trace (snd out)) = sends (trace s) /\
  dumps (trace (snd out)) = dumps (trace s).
Proof.
  intros srv s out.
  apply (X_process_frame_touches_no_connection 24 128 srv Demo.flaky Demo.frame s
           (snd out) (fst out)).
  unfold out. destruct (process_frame 24 128 srv Demo.flaky Demo.frame s). reflexivity.
Defined.

Lemma X_ids_distinct_witness :
  let srv := Demo.with_boxes (Ok Demo.five_boxes) (Demo.predicting 0) in
  List.NoDup (map f_id [Demo.face "0" "alice" Demo.score_095 [0; 0; 2; 2] 1000;
                        Demo.face "1" "Visitor" Demo.score_025 [1; 1; 2; 3] 1001;
                        Demo.face "2" "Visitor" S754_nan [2; 0; 1; 1] 1002]).
Proof.
  intros srv.
  apply (X_ids_are_pairwise_distinct 24 128 srv Demo.quiet Demo.frame initial_state
           (snd (process_frame 24 128 srv Demo.quiet Demo.frame initial_state))).
  vm_compute. reflexivity.
Defined.

(** Four failed reads in a row: four warnings, and neither of the two
    clients that the scheduler holds ready gets connected. *)
Lemma X_failed_reads_witness :
  iterate 24 128 (Demo.predicting 0) Cases.no_frames 4 initial_state
  = (Ok tt,
     {| steps := steps initial_state + 4;
        active_connections := active_connections initial_state;
        trace := trace initial_state ++ repeat (LogWarning "Frame read failed.") 4 |}).
Proof.
  apply (X_failed_reads_spin_without_suspending 24 128 (Demo.predicting 0)
           Cases.no_frames 4 initial_state).
  intros i _. reflexivity.
Defined.

(** Client 7 connects, clients 1 and 2 come and 1 goes meanwhile, and
    the wait of client 7 is cancelled: it is removed all the same. *)
Lemma X_handle_connection_witness :
  let others := [Connected 1%nat; Connected 2%nat; Closed 1%nat] in
  let cancelled := Raise (BaseException "CancelledError") in
  let out := handle_connection Demo.quiet 7%nat others cancelled initial_state in
  fst out = cancelled /\
  (7%nat ∉ active_connections (snd out)) /\
  active_connections (snd out)
  = (fold_left apply_event others (active_connections initial_state)) ∖ {[ 7%nat ]}.
Proof.
  intros others cancelled out.
  apply (X_handle_connection_always_unregisters Demo.quiet 7%nat others cancelled
           initial_state).
  repeat constructor; simpl; lia.
Defined.

Lemma X_non_finite_corner_witness :
  exists msg : string,
    face_try 24 128 (Demo.predicting 0) Demo.quiet Demo.rgb_frame 0
      {| bx1 := Demo.f32 0 0; by1 := S754_nan;
         bx2 := Demo.f32 2 0; by2 := S754_infinity false |} initial_state
    = (Raise (Exception msg), initial_state).
Proof.
  apply (X_non_finite_corner_raises_in_the_try 24 128 (Demo.predicting 0) Demo.quiet
           Demo.rgb_frame 0
           {| bx1 := Demo.f32 0 0; by1 := S754_nan;
              bx2 := Demo.f32 2 0; by2 := S754_infinity false |} initial_state).
  reflexivity.
Defined.

Lemma X_crop_extent_witness :
  length (crop Demo.rgb_frame 1 4 1 3) = Z.to_nat (4 - 1) /\
  Forall (fun row => length row = Z.to_nat (3 - 1)) (crop Demo.rgb_frame 1 4 1 3) /\
  image_size (crop Demo.rgb_frame 1 4 1 3) = (4 - 1) * (3 - 1) * 3.
Proof.
  apply (X_crop_has_the_extent_of_a_box_inside_the_frame Demo.rgb_frame 6 1 4 1 3).
  - repeat constructor.
  - lia.
  - simpl. lia.
  - lia.
  - lia.
Defined.

Lemma X_faces_independent_witness :
  fst (process_frame 24 128 (Demo.predicting 0) Demo.quiet Demo.frame initial_state)
  = fst (process_frame 24 128 (Demo.predicting 0) Demo.quiet Demo.frame
           (Demo.three_joined_one_left Demo.quiet)).
Proof.
  apply (X_faces_do_not_depend_on_the_connections 24 128 (Demo.predicting 0)
           Demo.quiet Demo.frame initial_state (Demo.three_joined_one_left Demo.quiet)).
  vm_compute. reflexivity.
Defined.

(** * The failures inside a frame and a cycle on the concrete deployments *)

Lemma C3_witness :
  let srv := Demo.with_boxes
               (Ok [[Demo.mk_box 0 0 2 2; Demo.mk_box 3 0 5 2]; [Demo.mk_box 1 1 3 4]])
               (Demo.predicting 0) in
  (exists (faces : list DetectedFace) (s' : state),
     process_frame 24 128 srv Demo.quiet Demo.frame initial_state = (Ok faces, s') /\
     length faces = 2%nat /\
     Forall2 (came_from 24 128 srv Demo.quiet Demo.rgb_frame) faces
             [Demo.mk_box 0 0 2 2; Demo.mk_box 1 1 3 4]) /\
  (snd (calculate_similarity 24 128 [Demo.f32 1 0; Demo.f32 0 0; Demo.f32 0 0]
          (Y Cases.one_similarity_failure))
     = Some (Exception "ValueError: shapes not aligned") /\
   face_verdict 24 128 Cases.one_similarity_failure Demo.quiet Demo.rgb_frame
     (Demo.mk_box 1 1 3 4) = Emitted).
Proof.
  intros srv. split.
  - apply (proj1 (C3_one_failed_face_is_skipped 24 128 srv Demo.quiet) Demo.frame
             Demo.rgb_frame
             [[Demo.mk_box 0 0 2 2; Demo.mk_box 3 0 5 2]; [Demo.mk_box 1 1 3 4]]
             initial_state [Demo.mk_box 0 0 2 2] [Demo.mk_box 1 1 3 4]
             (Demo.mk_box 3 0 5 2)).
    + vm_compute. reflexivity.
    + reflexivity.
    + reflexivity.
    + repeat constructor.
    + left. vm_compute. reflexivity.
  - apply (proj2 (C3_one_failed_face_is_skipped 24 128 Cases.one_similarity_failure
                    Demo.quiet)
             Demo.rgb_frame (Demo.mk_box 1 1 3 4) 1 1 3 4
             (crop Demo.rgb_frame 1 4 1 3)
             [Demo.f32 1 0; Demo.f32 0 0; Demo.f32 0 0]);
      try (vm_compute; reflexivity).
    vm_compute. discriminate.
Defined.

(** C3 as the design document states it fails for the matching step:
    of two detected boxes, the similarity computation of the second
    raises (its embedding has another dimension than the gallery) and
    that of the first succeeds, so exactly one face's processing
    failed; the error is logged by [calculate_similarity], and the
    payload has both faces, not one. *)
Lemma C3_counterexample :
  let srv := Cases.one_similarity_failure in
  let out := process_frame 24 128 srv Demo.quiet Demo.frame initial_state in
  model srv Demo.frame = Ok [[Demo.mk_box 0 0 2 2; Demo.mk_box 1 1 3 4]] /\
  facenet srv (crop Demo.rgb_frame 0 2 0 2) = Ok Demo.probe /\
  snd (calculate_similarity 24 128 Demo.probe (Y srv)) = None /\
  facenet srv (crop Demo.rgb_frame 1 4 1 3)
    = Ok [Demo.f32 1 0; Demo.f32 0 0; Demo.f32 0 0] /\
  snd (calculate_similarity 24 128 [Demo.f32 1 0; Demo.f32 0 0; Demo.f32 0 0] (Y srv))
    = Some (Exception "ValueError: shapes not aligned") /\
  fst out = Ok [Demo.face "0" "alice" Demo.score_095 [0; 0; 2; 2] 1000;
                Demo.face "1" "Visitor" pos_zero [1; 1; 2; 3] 1001] /\
  errors (trace (snd out))
    = ["Error in similarity calc: ValueError: shapes not aligned"%string] /\
  (2 <> 2 - 1)%nat.
Proof. vm_compute. repeat split. discriminate. Qed.

(** The loop survives a failing embedder and a failing subscriber; the
    cycle logs the failed box and the failed send; the log of the
    failed box has its own two lines; a failing detector ends the
    loop. *)
Lemma C4_witness :
  let srv := Demo.with_boxes (Ok Demo.five_boxes) (Demo.predicting 0) in
  let s := Demo.three_joined Demo.flaky in
  (exists s' : state,
     video_stream_loop 24 128 srv Demo.flaky 3 s = (Running, s')) /\
  (exists (p : FramePayload) (s1 s' : state),
     build_response 24 128 srv Demo.flaky Demo.frame (tick s) = (Ok p, s1) /\
     cycle 24 128 srv Demo.flaky s = (Ok tt, s') /\
     errors (trace s')
     = errors (trace s)
       ++ flat_map (box_log 24 128 srv Demo.flaky Demo.rgb_frame)
            (concat Demo.five_boxes)
       ++ send_errors Demo.flaky (json_dumps Demo.flaky p) (steps s1) (snapshot s)) /\
  (exists similarity_line : list string,
     (similarity_line = []
      \/ exists msg,
           similarity_line = [("Error in similarity calc: " ++ msg)%string]) /\
     box_log 24 128 srv Demo.flaky Demo.rgb_frame (Demo.mk_box 3 0 5 2)
     = similarity_line
       ++ match fst (face_try 24 128 srv Demo.flaky Demo.rgb_frame 1
                       (Demo.mk_box 3 0 5 2) s) with
          | Raise (Exception msg) =>
              [("Face processing error: " ++ msg)%string;
               "Traceback (most recent call last): ..."%string]
          | _ => []
          end) /\
  (cycle 24 128 Demo.broken_detector Demo.quiet initial_state
     = (Raise (Exception "RuntimeError: CUDA out of memory"), tick initial_state) /\
   video_stream_loop 24 128 Demo.broken_detector Demo.quiet 5 initial_state
     = (Escaped (Exception "RuntimeError: CUDA out of memory"), tick initial_state)).
Proof.
  intros srv s.
  pose proof (C4_caught_failures_do_not_stop_the_loop 24 128 srv Demo.flaky)
    as (HA & HB & HC & _).
  pose proof (C4_caught_failures_do_not_stop_the_loop 24 128 Demo.broken_detector
                Demo.quiet) as (_ & _ & _ & HD).
  split; [|split; [|split]].
  - apply (HA 3%nat s).
    + reflexivity.
    + apply demo_no_interrupt.
    + intros k frame Hread. simpl in Hread. injection Hread as <-.
      exists Demo.rgb_frame, Demo.five_boxes. split; [vm_compute|]; reflexivity.
  - apply (HB s Demo.frame Demo.rgb_frame Demo.five_boxes).
    + apply demo_no_interrupt.
    + reflexivity.
    + vm_compute. reflexivity.
    + reflexivity.
  - apply (HC Demo.rgb_frame 1%nat (Demo.mk_box 3 0 5 2) s).
  - apply (HD 4%nat initial_state Demo.frame Demo.rgb_frame
             (Exception "RuntimeError: CUDA out of memory")).
    + reflexivity.
    + reflexivity.
    + vm_compute. reflexivity.
    + reflexivity.
Defined.

(** One cycle on the frame with five boxes while the send to client 1
    fails: the two lines of the one failed box, then the line of the
    one failed send. With two failed boxes each has its own lines. *)
Example demo_cycle_error_log :
  let srv := Demo.with_boxes (Ok Demo.five_boxes) (Demo.predicting 0) in
  let s := Demo.three_joined Demo.flaky in
  errors (trace (snd (cycle 24 128 srv Demo.flaky s)))
  = ["Face processing error: EmbeddingError";
     "Traceback (most recent call last): ...";
     "Failed to send to client: ConnectionClosed"]%string /\
  flat_map (box_log 24 128 srv Demo.flaky Demo.rgb_frame)
           [Demo.mk_box 3 0 5 2;
            {| bx1 := S754_nan; by1 := Demo.f32 0 0;
               bx2 := Demo.f32 2 0; by2 := Demo.f32 2 0 |}]
  = ["Face processing error: EmbeddingError";
     "Traceback (most recent call last): ...";
     "Face processing error: ValueError: cannot convert float NaN to integer";
     "Traceback (most recent call last): ..."]%string.
Proof. vm_compute. split; reflexivity. Qed.
